(** * BoxStorageDAO: a shallow embedding of [session_3/dao/app.py]

    The contract is a Beaker/PyTeal application.  Every external method is a
    [Seq] of assertions, box reads/writes and global-state writes that the
    AVM runs atomically: a failed [Assert] (or any failing opcode) rejects
    the whole call and none of its writes are committed.

    Modelling choices:
    - TEAL byte strings are [string]s (one [ascii] per byte);
    - TEAL uint64 values are [Z]; [+] and [-] reject the call on overflow
      and underflow, as the AVM does;
    - the six [BoxMapping]s live in the single box store of the application,
      each under its own name prefix, exactly as Beaker lays them out;
    - a method is a function [DAOState -> option DAOState]; [None] is a
      rejected call;
    - what the ledger supplies to one call (sender, application address,
      minimum-balance oracle, inner-transaction execution, ABI field access
      of a stored proposal) is gathered in [Env].
    The AVM limits on box-name length and on box references are not
    tracked, nor is the ledger's check, after the program has run, that the
    application account can fund the boxes it now holds. *)

From Stdlib Require Import ZArith String Ascii Lia List.
From stdpp Require Import base option strings gmap list.

Local Open Scope string_scope.
Local Open Scope Z_scope.

(** ** Unsigned 64-bit arithmetic and big-endian encoding *)

Module Uint64.

Definition MAX : Z := 2 ^ 64 - 1.

(** TEAL [+]: fails on overflow. *)
Definition add (a b : Z) : option Z :=
  if a + b <=? MAX then Some (a + b) else None.

(** TEAL [-]: fails on underflow. *)
Definition sub (a b : Z) : option Z :=
  if b <=? a then Some (a - b) else None.

Definition byte_of_Z (x : Z) : ascii := ascii_of_N (Z.to_N x).
Definition Z_of_byte (c : ascii) : Z := Z.of_N (N_of_ascii c).

(** The [n] low-order bytes of [x], most significant first. *)
Fixpoint be_bytes (n : nat) (x : Z) : string :=
  match n with
  | O => ""
  | S n' => be_bytes n' (x / 256) +:+ String (byte_of_Z (x mod 256)) ""
  end.

Fixpoint be_value (acc : Z) (s : string) : Z :=
  match s with
  | "" => acc
  | String c s' => be_value (acc * 256 + Z_of_byte c) s'
  end.

(** TEAL [itob]: 8 bytes, big endian. *)
Definition Itob (x : Z) : string := be_bytes 8 x.

(** TEAL [btoi]: fails on more than 8 bytes. *)
Definition Btoi (s : string) : option Z :=
  if (String.length s <=? 8)%nat then Some (be_value 0 s) else None.

End Uint64.

(** ** ABI encodings used by the contract *)

(** [abi.Tuple2[abi.Address, abi.Uint64]]: both components are static, so
    the encoding is the address bytes followed by the 8-byte integer.
    [decode] of such a tuple only stores the bytes and [encode] returns
    them, so a decoded key is used verbatim. *)
Definition Tuple2_encode (addr : string) (n : Z) : string :=
  addr +:+ Uint64.Itob n.

(** [abi.Bool] set to [True] encodes as the single byte 0x80. *)
Definition Bool_true : string := String "128"%char "".

(** [NFTProposal] (an [abi.NamedTuple]) once its three fields are read. *)
Record NFTProposal := {
  name : string;
  unit_name : string;
  reserve : string
}.

(** ** Box storage *)

Module Box.

(** [box_len]'s flag: does a box of that name exist? *)
Definition exists_ (key : string) (b : gmap string string) : bool :=
  match b !! key with Some _ => true | None => false end.

(** [box_get] followed by [Assert(hasValue)] (Beaker's [Element.get]). *)
Definition get (key : string) (b : gmap string string) : option string :=
  b !! key.

(** [box_put]: creates the box, or replaces its contents; fails when the
    box exists with a different length. *)
Definition put (key value : string) (b : gmap string string)
  : option (gmap string string) :=
  match b !! key with
  | Some old =>
      if (String.length old =? String.length value)%nat
      then Some (<[key := value]> b) else None
  | None => Some (<[key := value]> b)
  end.

(** [box_del]: removes the box if there is one. *)
Definition del (key : string) (b : gmap string string)
  : gmap string string :=
  delete key b.

(** Beaker's [Element.set]: [box_del], then [box_put] of the encoded
    value, so that a box of another length is replaced and not refused. *)
Definition set (key value : string) (b : gmap string string)
  : option (gmap string string) :=
  put key value (del key b).

End Box.

(** Box names of the six [BoxMapping]s: prefix, then the encoded key. *)
Definition proposals (key : string) : string := "p-" +:+ key.
Definition votes (key : string) : string := "v-" +:+ key.
Definition has_voted (key : string) : string := "h-" +:+ key.
Definition update_proposals (key : string) : string := "up-" +:+ key.
Definition update_votes (key : string) : string := "uv-" +:+ key.
Definition update_has_voted (key : string) : string := "uh-" +:+ key.

(** ** Contract state and call environment *)

Record DAOState := {
  winning_proposal_votes : Z;
  winning_proposal : string;
  winning_update_votes : Z;
  winning_update : string;
  minted_asa : Z;
  boxes : gmap string string
}.

Record PaymentTransaction := {
  receiver : string;
  amount : Z
}.

(** The two inner transactions the contract issues, with the fields it
    sets. *)
Inductive InnerTxn :=
| AssetCreate (asset_name asset_unit_name asset_reserve asset_manager
               asset_url : string) (total fee : Z)
| AssetReconfigure (asset : Z) (asset_reserve asset_manager : string)
                   (fee : Z).

Record Env := {
  (** [Txn.sender()] *)
  Txn_sender : string;
  (** [Global.current_application_address()] *)
  current_application_address : string;
  (** [AccountParam.minBalance] of the application account, as a function
      of the boxes it holds *)
  minBalance : gmap string string -> Z;
  (** [InnerTxnBuilder.Execute]: [None] when the ledger rejects the inner
      transaction, otherwise [InnerTxn.created_asset_id()] *)
  InnerTxn_execute : InnerTxn -> option Z;
  (** field access on a stored [NFTProposal] (PyTeal's ABI runtime) *)
  NFTProposal_fields : string -> option NFTProposal
}.

Definition Assert (b : bool) : option unit := if b then Some tt else None.

Definition asset_url : string :=
  "template-ipfs://{ipfscid:1:dag-pb:reserve:sha2-256}/metadata.json#arc3".

(** ** The external methods *)

(** [create]: global state at its declared defaults, no boxes. *)
Definition create : DAOState :=
  {| winning_proposal_votes := 0;
     winning_proposal := "";
     winning_update_votes := 0;
     winning_update := "";
     minted_asa := 0;
     boxes := ∅ |}.

Definition with_boxes (b : gmap string string) (s : DAOState) : DAOState :=
  {| winning_proposal_votes := winning_proposal_votes s;
     winning_proposal := winning_proposal s;
     winning_update_votes := winning_update_votes s;
     winning_update := winning_update s;
     minted_asa := minted_asa s;
     boxes := b |}.

Definition add_proposal (env : Env) (proposal : string) (proposal_id : Z)
    (mbr_payment : PaymentTransaction) (s : DAOState) : option DAOState :=
  _ ← Assert (minted_asa s =? 0);
  _ ← Assert (bool_decide
                (receiver mbr_payment = current_application_address env));
  let pre_mbr := minBalance env (boxes s) in
  let addr := Txn_sender env in
  let proposal_key := Tuple2_encode addr proposal_id in
  _ ← Assert (negb (Box.exists_ (proposals proposal_key) (boxes s)));
  b ← Box.set (proposals proposal_key) proposal (boxes s);
  let current_mbr := minBalance env b in
  delta ← Uint64.sub current_mbr pre_mbr;
  _ ← Assert (delta <=? amount mbr_payment);
  Some (with_boxes b s).

Definition vote (env : Env) (proposer : string) (proposal_id : Z)
    (s : DAOState) : option DAOState :=
  _ ← Assert (minted_asa s =? 0);
  let zero_val := 0 in
  let proposal_key := Tuple2_encode proposer proposal_id in
  _ ← Assert (negb (Box.exists_ (has_voted (Txn_sender env)) (boxes s)));
  b1 ← (if negb (Box.exists_ (votes proposal_key) (boxes s))
        then Box.set (votes proposal_key) (Uint64.Itob zero_val) (boxes s)
        else Some (boxes s));
  stored ← Box.get (votes proposal_key) b1;
  current_votes ← Uint64.Btoi stored;
  total_votes ← Uint64.add current_votes 1;
  b2 ← Box.set (votes proposal_key) (Uint64.Itob total_votes) b1;
  let leads := winning_proposal_votes s <? total_votes in
  b3 ← Box.set (has_voted (Txn_sender env)) Bool_true b2;
  Some {| winning_proposal_votes :=
            if leads then total_votes else winning_proposal_votes s;
          winning_proposal :=
            if leads then proposal_key else winning_proposal s;
          winning_update_votes := winning_update_votes s;
          winning_update := winning_update s;
          minted_asa := minted_asa s;
          boxes := b3 |}.

Definition mint (env : Env) (s : DAOState) : option DAOState :=
  _ ← Assert (minted_asa s =? 0);
  let proposal_key := winning_proposal s in
  stored ← Box.get (proposals proposal_key) (boxes s);
  proposal ← NFTProposal_fields env stored;
  created ← InnerTxn_execute env
    (AssetCreate (name proposal) (unit_name proposal) (reserve proposal)
       (current_application_address env) asset_url 1 0);
  Some {| winning_proposal_votes := winning_proposal_votes s;
          winning_proposal := winning_proposal s;
          winning_update_votes := winning_update_votes s;
          winning_update := winning_update s;
          minted_asa := created;
          boxes := boxes s |}.

(** [asa] is accepted and never used; the box read goes through
    [app.state.proposals], as in the source. *)
Definition update (env : Env) (asa : Z) (s : DAOState) : option DAOState :=
  _ ← Assert (negb (minted_asa s =? 0));
  let update_proposal_key := winning_update s in
  reserve ← Box.get (proposals update_proposal_key) (boxes s);
  _ ← InnerTxn_execute env
    (AssetReconfigure (minted_asa s) reserve
       (current_application_address env) 0);
  Some s.

Definition add_update (env : Env) (reserve : string) (proposal_id : Z)
    (mbr_payment : PaymentTransaction) (s : DAOState) : option DAOState :=
  _ ← Assert (negb (minted_asa s =? 0));
  _ ← Assert (bool_decide
                (receiver mbr_payment = current_application_address env));
  let pre_mbr := minBalance env (boxes s) in
  let addr := Txn_sender env in
  let proposal_key := Tuple2_encode addr proposal_id in
  _ ← Assert (negb (Box.exists_ (update_proposals proposal_key) (boxes s)));
  b ← Box.set (update_proposals proposal_key) reserve (boxes s);
  let current_mbr := minBalance env b in
  delta ← Uint64.sub current_mbr pre_mbr;
  _ ← Assert (delta <=? amount mbr_payment);
  Some (with_boxes b s).

Definition vote_on_update (env : Env) (proposer : string) (proposal_id : Z)
    (s : DAOState) : option DAOState :=
  _ ← Assert (minted_asa s =? 0);
  let zero_val := 0 in
  let proposal_key := Tuple2_encode proposer proposal_id in
  _ ← Assert (negb (Box.exists_ (update_has_voted (Txn_sender env))
                      (boxes s)));
  b1 ← (if negb (Box.exists_ (update_votes proposal_key) (boxes s))
        then Box.set (update_votes proposal_key) (Uint64.Itob zero_val)
               (boxes s)
        else Some (boxes s));
  stored ← Box.get (update_votes proposal_key) b1;
  current_votes ← Uint64.Btoi stored;
  total_votes ← Uint64.add current_votes 1;
  b2 ← Box.set (update_votes proposal_key) (Uint64.Itob total_votes) b1;
  let leads := winning_update_votes s <? total_votes in
  b3 ← Box.set (update_has_voted (Txn_sender env)) Bool_true b2;
  Some {| winning_proposal_votes := winning_proposal_votes s;
          winning_proposal := winning_proposal s;
          winning_update_votes :=
            if leads then total_votes else winning_update_votes s;
          winning_update :=
            if leads then proposal_key else winning_update s;
          minted_asa := minted_asa s;
          boxes := b3 |}.

(** ** Calls, atomic execution and call sequences *)

Inductive Call :=
| AddProposal (proposal : string) (proposal_id : Z)
              (mbr_payment : PaymentTransaction)
| Vote (proposer : string) (proposal_id : Z)
| Mint
| Update (asa : Z)
| AddUpdate (reserve : string) (proposal_id : Z)
            (mbr_payment : PaymentTransaction)
| VoteOnUpdate (proposer : string) (proposal_id : Z).

Definition call (env : Env) (c : Call) (s : DAOState) : option DAOState :=
  match c with
  | AddProposal p i pay => add_proposal env p i pay s
  | Vote p i => vote env p i s
  | Mint => mint env s
  | Update a => update env a s
  | AddUpdate r i pay => add_update env r i pay s
  | VoteOnUpdate p i => vote_on_update env p i s
  end.

(** The ledger commits a call that succeeds and discards one that fails. *)
Definition exec (env : Env) (c : Call) (s : DAOState) : DAOState :=
  match call env c s with
  | Some s' => s'
  | None => s
  end.

Fixpoint run (trace : list (Env * Call)) (s : DAOState) : DAOState :=
  match trace with
  | [] => s
  | (env, c) :: rest => run rest (exec env c s)
  end.

Inductive reachable : DAOState -> Prop :=
| reachable_create : reachable create
| reachable_call env c s s' :
    reachable s -> call env c s = Some s' -> reachable s'.

(** ** The voting algorithm as the specification words it

    A ballot box is a tally mapping, a voter-flag mapping and the running
    leader.  Casting a ballot: reject a voter that already has a flag; take
    the key's tally, zero when it has none; add one; store it; replace the
    leader only when the new tally is strictly greater than the leading
    count; flag the voter. *)

Record Ballots := {
  leader_votes : Z;
  leader : string;
  store : gmap string string
}.

Definition current_tally (tally_box : string) (b : gmap string string)
  : option Z :=
  match b !! tally_box with
  | None => Some 0
  | Some v => Uint64.Btoi v
  end.

Definition cast_ballot (tally voted : string -> string)
    (voter key : string) (t : Ballots) : option Ballots :=
  match store t !! voted voter with
  | Some _ => None
  | None =>
      match current_tally (tally key) (store t) with
      | None => None
      | Some n =>
          if n + 1 <=? Uint64.MAX then
            Some {| leader_votes :=
                      if leader_votes t <? n + 1 then n + 1
                      else leader_votes t;
                    leader :=
                      if leader_votes t <? n + 1 then key else leader t;
                    store := <[voted voter := Bool_true]>
                               (<[tally key := Uint64.Itob (n + 1)]>
                                  (store t)) |}
          else None
      end
  end.

Definition proposal_ballots (s : DAOState) : Ballots :=
  {| leader_votes := winning_proposal_votes s;
     leader := winning_proposal s;
     store := boxes s |}.

Definition update_ballots (s : DAOState) : Ballots :=
  {| leader_votes := winning_update_votes s;
     leader := winning_update s;
     store := boxes s |}.

Definition with_proposal_ballots (s : DAOState) (t : Ballots) : DAOState :=
  {| winning_proposal_votes := leader_votes t;
     winning_proposal := leader t;
     winning_update_votes := winning_update_votes s;
     winning_update := winning_update s;
     minted_asa := minted_asa s;
     boxes := store t |}.

Definition with_update_ballots (s : DAOState) (t : Ballots) : DAOState :=
  {| winning_proposal_votes := winning_proposal_votes s;
     winning_proposal := winning_proposal s;
     winning_update_votes := leader_votes t;
     winning_update := leader t;
     minted_asa := minted_asa s;
     boxes := store t |}.

(** ** Auxiliary definitions for the statements *)

(** The state after [app.state.minted_asa.set(id)]. *)
Definition with_minted_asa (id : Z) (s : DAOState) : DAOState :=
  {| winning_proposal_votes := winning_proposal_votes s;
     winning_proposal := winning_proposal s;
     winning_update_votes := winning_update_votes s;
     winning_update := winning_update s;
     minted_asa := id;
     boxes := boxes s |}.

(** The ledger never gives a created asset the id zero. *)
Definition asset_ids_nonzero (env : Env) : Prop :=
  forall asset_name asset_unit_name asset_reserve asset_manager url total
         fee id,
    InnerTxn_execute env
      (AssetCreate asset_name asset_unit_name asset_reserve asset_manager
         url total fee) = Some id ->
    id <> 0.

(** How many [mint] calls of a call sequence succeed. *)
Fixpoint successful_mints (trace : list (Env * Call)) (s : DAOState) : nat :=
  match trace with
  | [] => 0
  | (env, c) :: rest =>
      (match c, call env c s with
       | Mint, Some _ => 1
       | _, _ => 0
       end + successful_mints rest (exec env c s))%nat
  end.

(** The key under which a box of the mapping with prefix [pfx] was
    stored; [None] for a box of another mapping. *)
Fixpoint strip_prefix (pfx box : string) : option string :=
  match pfx, box with
  | "", _ => Some box
  | String a pfx', String b box' =>
      if Ascii.eqb a b then strip_prefix pfx' box' else None
  | String _ _, "" => None
  end.

(** The tallies a vote mapping holds, and the largest of them (zero for a
    mapping without entries). *)
Definition mapping_tallies (pfx : string) (b : gmap string string)
  : list Z :=
  omap (fun kv : string * string =>
          match strip_prefix pfx kv.1 with
          | Some _ => Uint64.Btoi kv.2
          | None => None
          end) (map_to_list b).

Definition max_tally (pfx : string) (b : gmap string string) : Z :=
  foldr Z.max 0 (mapping_tallies pfx b).

(** Invariant of a ballot box: every stored tally is the encoding of a
    count between one and the leading count, and a nonzero leading count
    is the tally stored for the leader. *)
Definition ballots_ok (pfx : string) (t : Ballots) : Prop :=
  0 <= leader_votes t <= Uint64.MAX /\
  (forall k v, store t !! (pfx +:+ k) = Some v ->
     exists n, v = Uint64.Itob n /\ 1 <= n <= leader_votes t) /\
  (leader_votes t <> 0 ->
     store t !! (pfx +:+ leader t) = Some (Uint64.Itob (leader_votes t))).

Definition tallies_consistent (s : DAOState) : Prop :=
  ballots_ok "v-" (proposal_ballots s) /\
  ballots_ok "uv-" (update_ballots s).

(** ** Counting over the box store *)

(** The sum of [f] over all boxes. *)
Definition box_total (f : string -> string -> Z) (b : gmap string string)
  : Z :=
  map_fold (fun k v acc => f k v + acc) 0 b.

(** What a box adds to the votes recorded in the tally mapping with prefix
    [pfx]: its decoded tally, nothing for a box of another mapping. *)
Definition tally_weight (pfx k v : string) : Z :=
  match strip_prefix pfx k with
  | Some _ => default 0 (Uint64.Btoi v)
  | None => 0
  end.

(** One for each box of the mapping with prefix [pfx]. *)
Definition entry_weight (pfx k v : string) : Z :=
  match strip_prefix pfx k with
  | Some _ => 1
  | None => 0
  end.

Definition votes_recorded (pfx : string) (b : gmap string string) : Z :=
  box_total (tally_weight pfx) b.

Definition entries (pfx : string) (b : gmap string string) : Z :=
  box_total (entry_weight pfx) b.

(** The five global values of two states agree. *)
Definition same_globals (s s' : DAOState) : Prop :=
  winning_proposal_votes s' = winning_proposal_votes s /\
  winning_proposal s' = winning_proposal s /\
  winning_update_votes s' = winning_update_votes s /\
  winning_update s' = winning_update s /\
  minted_asa s' = minted_asa s.

(** Is the call a proposal vote (respectively an update vote) for the
    encoded key [k]? *)
Definition is_vote_for (k : string) (c : Call) : bool :=
  match c with
  | Vote proposer proposal_id =>
      bool_decide (Tuple2_encode proposer proposal_id = k)
  | _ => false
  end.

Definition is_update_vote_for (k : string) (c : Call) : bool :=
  match c with
  | VoteOnUpdate proposer proposal_id =>
      bool_decide (Tuple2_encode proposer proposal_id = k)
  | _ => false
  end.

(** The six kinds of boxes the contract writes, with what is known of
    their contents given the leading counts [lp] and [lu]. *)
Definition known_box (lp lu : Z) (box v : string) : Prop :=
  (exists k, box = proposals k) \/
  (exists k n, box = votes k /\ v = Uint64.Itob n /\ 1 <= n <= lp) \/
  (exists a, box = has_voted a /\ v = Bool_true) \/
  (exists k, box = update_proposals k) \/
  (exists k n, box = update_votes k /\ v = Uint64.Itob n /\ 1 <= n <= lu) \/
  (exists a, box = update_has_voted a /\ v = Bool_true).

(** ** A sample ledger, to run the contract on concrete calls *)

Module Ledger.

(** ARC-4 layout of [NFTProposal]: two 2-byte offsets, the 32-byte
    reserve, then each string with its 2-byte length. *)
Definition encode_NFTProposal (p : NFTProposal) : string :=
  let n := Z.of_nat (String.length (name p)) in
  let u := Z.of_nat (String.length (unit_name p)) in
  Uint64.be_bytes 2 36 +:+ Uint64.be_bytes 2 (36 + 2 + n) +:+ reserve p
  +:+ Uint64.be_bytes 2 n +:+ name p
  +:+ Uint64.be_bytes 2 u +:+ unit_name p.

Definition uint16_at (off : nat) (e : string) : nat :=
  Z.to_nat (Uint64.be_value 0 (substring off 2 e)).

Definition fields (e : string) : option NFTProposal :=
  let len := String.length e in
  let o1 := uint16_at 0 e in
  let o2 := uint16_at 2 e in
  if ((36 <=? len) && (o1 + 2 <=? o2) && (o2 + 2 <=? len))%nat then
    Some {| name := substring (o1 + 2) (o2 - o1 - 2) e;
            unit_name := substring (o2 + 2) (len - o2 - 2) e;
            reserve := substring 4 32 e |}
  else None.

(** Minimum balance: a base amount, plus 2500 per box and 400 per byte of
    box name and contents. *)
Definition min_balance (b : gmap string string) : Z :=
  100000 +
  map_fold (fun k v acc =>
              acc + 2500 + 400 * Z.of_nat (String.length k + String.length v))
    0 b.

Definition is_address (a : string) : bool := (String.length a =? 32)%nat.

(** Inner transactions: address fields must be 32 bytes; the one asset
    this ledger creates gets id 1001. *)
Definition execute (tx : InnerTxn) : option Z :=
  match tx with
  | AssetCreate _ _ r m _ _ _ =>
      if is_address r && is_address m then Some 1001 else None
  | AssetReconfigure a r m _ =>
      if (a =? 1001) && is_address r && is_address m then Some 0 else None
  end.

Definition app_address : string := "DAODAODAODAODAODAODAODAODAODAO__".
Definition alice : string := "ALICE___________________________".
Definition bob : string := "BOB_____________________________".
Definition xavier : string := "XAVIER__________________________".
Definition yara : string := "YARA____________________________".
Definition treasury : string := "TREASURY________________________".

Definition env (sender : string) : Env :=
  {| Txn_sender := sender;
     current_application_address := app_address;
     minBalance := min_balance;
     InnerTxn_execute := execute;
     NFTProposal_fields := fields |}.

Definition pay (amt : Z) : PaymentTransaction :=
  {| receiver := app_address; amount := amt |}.

Definition artwork : string :=
  encode_NFTProposal
    {| name := "Bootcamp NFT"; unit_name := "BOOT"; reserve := treasury |}.

End Ledger.

(** ** Concrete runs on the sample ledger *)

Module Runs.
Import Ledger.

(** Xavier registers the artwork with the exact funding, Alice and Bob
    vote for it. *)
Definition voted : list (Env * Call) :=
  [ (env xavier, AddProposal artwork 1 (pay 41700));
    (env alice, Vote xavier 1);
    (env bob, Vote xavier 1) ].

Definition minted : list (Env * Call) := voted ++ [ (env bob, Mint) ].

(** Before the mint Alice also votes for update (yara, 1); after it Yara
    registers that update, with the treasury as the new reserve. *)
Definition update_registered : list (Env * Call) :=
  [ (env xavier, AddProposal artwork 1 (pay 41700));
    (env alice, Vote xavier 1);
    (env alice, VoteOnUpdate yara 1);
    (env bob, Mint);
    (env yara, AddUpdate treasury 1 (pay 32500)) ].

(** Yara stores 32 raw bytes under (yara, 7) in [proposals] before the
    mint, and Alice votes for update (yara, 7). *)
Definition raw_proposal : list (Env * Call) :=
  [ (env xavier, AddProposal artwork 1 (pay 41700));
    (env yara, AddProposal treasury 7 (pay 32100));
    (env alice, Vote xavier 1);
    (env alice, VoteOnUpdate yara 7);
    (env bob, Mint) ].

(** Two proposals, two votes each, in alternating order. *)
Definition alternating : list (Env * Call) :=
  [ (env alice, Vote xavier 1);
    (env bob, Vote yara 1);
    (env xavier, Vote xavier 1);
    (env yara, Vote yara 1) ].

End Runs.

(** ** Facts about the encodings *)

Lemma string_length_app (s1 s2 : string) :
  String.length (s1 +:+ s2) = (String.length s1 + String.length s2)%nat.
Proof. induction s1 as [|c s1 IH]; simpl; [reflexivity | now rewrite IH]. Qed.

Lemma be_value_app (s1 s2 : string) (acc : Z) :
  Uint64.be_value acc (s1 +:+ s2)
  = Uint64.be_value (Uint64.be_value acc s1) s2.
Proof.
  revert acc. induction s1 as [|c s1 IH]; intros acc; simpl;
    [reflexivity | apply IH].
Qed.

Lemma Z_of_byte_of_Z (y : Z) :
  0 <= y < 256 -> Uint64.Z_of_byte (Uint64.byte_of_Z y) = y.
Proof.
  intros Hy. unfold Uint64.Z_of_byte, Uint64.byte_of_Z.
  rewrite N_ascii_embedding by lia. lia.
Qed.

Lemma Z_of_byte_nonneg (c : ascii) : 0 <= Uint64.Z_of_byte c.
Proof. unfold Uint64.Z_of_byte. lia. Qed.

Lemma be_value_nonneg (s : string) (acc : Z) :
  0 <= acc -> 0 <= Uint64.be_value acc s.
Proof.
  revert acc. induction s as [|c s IH]; intros acc Hacc; simpl; [exact Hacc|].
  apply IH. pose proof (Z_of_byte_nonneg c). lia.
Qed.

Lemma be_bytes_length (n : nat) (x : Z) :
  String.length (Uint64.be_bytes n x) = n.
Proof.
  revert x. induction n as [|n IH]; intros x; simpl; [reflexivity|].
  rewrite string_length_app, IH. simpl. lia.
Qed.

Lemma be_value_be_bytes (n : nat) (x : Z) :
  Uint64.be_value 0 (Uint64.be_bytes n x) = x mod 256 ^ Z.of_nat n.
Proof.
  revert x. induction n as [|n IH]; intros x.
  - simpl. now rewrite Z.mod_1_r.
  - cbn [Uint64.be_bytes]. rewrite be_value_app, IH. cbn [Uint64.be_value].
    rewrite Z_of_byte_of_Z by (apply Z.mod_pos_bound; lia).
    rewrite Nat2Z.inj_succ, Z.pow_succ_r by lia.
    rewrite (Z.rem_mul_r x 256 (256 ^ Z.of_nat n)) by lia. lia.
Qed.

Lemma Itob_length (x : Z) : String.length (Uint64.Itob x) = 8%nat.
Proof. apply be_bytes_length. Qed.

Lemma Btoi_Itob (x : Z) :
  0 <= x <= Uint64.MAX -> Uint64.Btoi (Uint64.Itob x) = Some x.
Proof.
  intros Hx. unfold Uint64.Btoi, Uint64.Itob.
  rewrite be_bytes_length, be_value_be_bytes.
  change (8 <=? 8)%nat with true. cbv iota. f_equal. apply Z.mod_small. unfold Uint64.MAX in Hx.
  change (256 ^ Z.of_nat 8) with (2 ^ 64). lia.
Qed.

Lemma Btoi_nonneg (s : string) (x : Z) : Uint64.Btoi s = Some x -> 0 <= x.
Proof.
  unfold Uint64.Btoi. destruct (_ <=? _)%nat; [|discriminate].
  intros [= <-]. now apply be_value_nonneg.
Qed.

Lemma Itob_inj (x y : Z) :
  0 <= x <= Uint64.MAX -> 0 <= y <= Uint64.MAX ->
  Uint64.Itob x = Uint64.Itob y -> x = y.
Proof.
  intros Hx Hy Heq. apply Btoi_Itob in Hx, Hy. congruence.
Qed.

Arguments Uint64.Itob : simpl never.
Arguments Uint64.Btoi : simpl never.
Arguments Uint64.add : simpl never.
Arguments Uint64.sub : simpl never.

(** A [set] always goes through and leaves the box with the new value. *)
Lemma set_eq (key value : string) (b : gmap string string) :
  Box.set key value b = Some (<[key := value]> b).
Proof.
  unfold Box.set, Box.put, Box.del.
  now rewrite lookup_delete_eq, insert_delete_eq.
Qed.

Arguments Box.set : simpl never.

(** ** Box names of different mappings never collide *)

Lemma votes_not_has_voted (k v : string) : votes k <> has_voted v.
Proof. unfold votes, has_voted. cbv [String.append]. congruence. Qed.

Lemma update_votes_not_update_has_voted (k v : string) :
  update_votes k <> update_has_voted v.
Proof.
  unfold update_votes, update_has_voted. cbv [String.append]. congruence.
Qed.

(** Both voting methods run the same straight-line code; one script
    relates either of them to [cast_ballot]. *)
Ltac ballot_unfold tally voted :=
  let Hvoted := fresh "Hvoted" in
  let Htally := fresh "Htally" in
  let stored := fresh "stored" in
  let n := fresh "n" in
  unfold cast_ballot, current_tally, Box.exists_, Box.get;
  destruct (minted_asa _ =? 0); [|reflexivity]; cbn;
  destruct (boxes _ !! voted _) eqn:Hvoted; cbn; [reflexivity|];
  destruct (boxes _ !! tally _) as [stored|] eqn:Htally; cbn;
  [ rewrite Htally; cbn;
    (destruct (Uint64.Btoi stored) as [n|]; cbn; [|reflexivity]);
    unfold Uint64.add; (destruct (n + 1 <=? Uint64.MAX); cbn; [|reflexivity]);
    rewrite set_eq; cbn; rewrite set_eq; reflexivity
  | rewrite set_eq; cbn; rewrite lookup_insert_eq; cbn;
    rewrite Btoi_Itob by (unfold Uint64.MAX; lia); cbn;
    unfold Uint64.add; (destruct (0 + 1 <=? Uint64.MAX); cbn; [|reflexivity]);
    rewrite set_eq; cbn; rewrite set_eq; cbn;
    rewrite insert_insert_eq; reflexivity ].

Lemma vote_unfold (env : Env) (proposer : string) (proposal_id : Z)
    (s : DAOState) :
  vote env proposer proposal_id s =
  if minted_asa s =? 0 then
    with_proposal_ballots s <$>
      cast_ballot votes has_voted (Txn_sender env)
        (Tuple2_encode proposer proposal_id) (proposal_ballots s)
  else None.
Proof. unfold vote. ballot_unfold votes has_voted. Qed.

Lemma vote_on_update_unfold (env : Env) (proposer : string)
    (proposal_id : Z) (s : DAOState) :
  vote_on_update env proposer proposal_id s =
  if minted_asa s =? 0 then
    with_update_ballots s <$>
      cast_ballot update_votes update_has_voted (Txn_sender env)
        (Tuple2_encode proposer proposal_id) (update_ballots s)
  else None.
Proof.
  unfold vote_on_update. ballot_unfold update_votes update_has_voted.
Qed.

(** A tally box of another length is replaced, not refused: with a 4-byte
    tally holding 9 and a leading count of 7, a vote for that key is
    accepted, stores the 8-byte encoding of 10 and takes the lead. *)
Example vote_replaces_a_short_tally :
  let key := Tuple2_encode Ledger.xavier 1 in
  let s := {| winning_proposal_votes := 7;
              winning_proposal := Tuple2_encode Ledger.yara 1;
              winning_update_votes := 0;
              winning_update := "";
              minted_asa := 0;
              boxes := <[votes key := Uint64.be_bytes 4 9]> ∅ |} in
  exists s',
    vote (Ledger.env Ledger.alice) Ledger.xavier 1 s = Some s' /\
    boxes s' !! votes key = Some (Uint64.Itob 10) /\
    winning_proposal_votes s' = 10 /\
    winning_proposal s' = key.
Proof. cbv zeta. eexists. repeat split; vm_compute; reflexivity. Qed.

(** ** Closed forms of the methods *)

Lemma current_tally_nonneg (box : string) (b : gmap string string) (n : Z) :
  current_tally box b = Some n -> 0 <= n.
Proof.
  unfold current_tally. destruct (b !! box).
  - apply Btoi_nonneg.
  - intros [= <-]. lia.
Qed.

Lemma cast_ballot_Some (tally voted : string -> string)
    (voter key : string) (t t' : Ballots) :
  cast_ballot tally voted voter key t = Some t' <->
  store t !! voted voter = None /\
  exists n, current_tally (tally key) (store t) = Some n /\
    n + 1 <= Uint64.MAX /\
    t' = {| leader_votes :=
              if leader_votes t <? n + 1 then n + 1 else leader_votes t;
            leader := if leader_votes t <? n + 1 then key else leader t;
            store := <[voted voter := Bool_true]>
                       (<[tally key := Uint64.Itob (n + 1)]> (store t)) |}.
Proof.
  unfold cast_ballot. split.
  - destruct (store t !! voted voter); [discriminate|].
    destruct (current_tally _ _) as [n|]; [|discriminate].
    destruct (n + 1 <=? Uint64.MAX) eqn:Hle; [|discriminate].
    intros [= <-]. split; [reflexivity|]. exists n.
    split; [reflexivity|]. split; [lia | reflexivity].
  - intros [-> (n & -> & Hle & ->)].
    apply Z.leb_le in Hle. now rewrite Hle.
Qed.

(** Both registration methods share their body up to the phase gate and
    the mapping written. *)
Ltac register_unfold :=
  unfold Box.exists_, Uint64.sub; split;
  [ intros H;
    repeat match type of H with
    | (Assert ?b ≫= _) = Some _ =>
        destruct b eqn:?; cbn in H; [|discriminate H]
    | (Box.set ?k ?v ?m ≫= _) = Some _ =>
        rewrite set_eq in H; cbn in H
    | ((if ?c then _ else _) ≫= _) = Some _ =>
        destruct c eqn:?; cbn in H; [|discriminate H]
    end
  | ].

Lemma add_proposal_Some (env : Env) (proposal : string) (proposal_id : Z)
    (mbr_payment : PaymentTransaction) (s s' : DAOState) :
  let box := proposals (Tuple2_encode (Txn_sender env) proposal_id) in
  let pre_mbr := minBalance env (boxes s) in
  let current_mbr := minBalance env (<[box := proposal]> (boxes s)) in
  add_proposal env proposal proposal_id mbr_payment s = Some s' <->
  minted_asa s = 0 /\
  receiver mbr_payment = current_application_address env /\
  boxes s !! box = None /\
  pre_mbr <= current_mbr /\
  current_mbr - pre_mbr <= amount mbr_payment /\
  s' = with_boxes (<[box := proposal]> (boxes s)) s.
Proof.
  cbv zeta. unfold add_proposal. register_unfold.
  - destruct (boxes s !! _) eqn:Hbox; [discriminate|].
    injection H as <-. rewrite bool_decide_eq_true in *.
    repeat split; try lia; try assumption.
  - intros (Hm & Hr & Hbox & Hle & Hpay & ->).
    rewrite Hm, Hbox. cbn. rewrite bool_decide_true by exact Hr. cbn.
    rewrite set_eq. cbn.
    apply Z.leb_le in Hle, Hpay. now rewrite Hle; cbn; rewrite Hpay.
Qed.

Lemma add_update_Some (env : Env) (reserve : string) (proposal_id : Z)
    (mbr_payment : PaymentTransaction) (s s' : DAOState) :
  let box := update_proposals (Tuple2_encode (Txn_sender env) proposal_id) in
  let pre_mbr := minBalance env (boxes s) in
  let current_mbr := minBalance env (<[box := reserve]> (boxes s)) in
  add_update env reserve proposal_id mbr_payment s = Some s' <->
  minted_asa s <> 0 /\
  receiver mbr_payment = current_application_address env /\
  boxes s !! box = None /\
  pre_mbr <= current_mbr /\
  current_mbr - pre_mbr <= amount mbr_payment /\
  s' = with_boxes (<[box := reserve]> (boxes s)) s.
Proof.
  cbv zeta. unfold add_update. register_unfold.
  - destruct (boxes s !! _) eqn:Hbox; [discriminate|].
    injection H as <-. rewrite bool_decide_eq_true in *.
    repeat split; try lia; try assumption.
  - intros (Hm & Hr & Hbox & Hle & Hpay & ->).
    apply Z.eqb_neq in Hm. rewrite Hm, Hbox. cbn.
    rewrite bool_decide_true by exact Hr. cbn.
    rewrite set_eq. cbn.
    apply Z.leb_le in Hle, Hpay. now rewrite Hle; cbn; rewrite Hpay.
Qed.

Lemma mint_Some (env : Env) (s s' : DAOState) :
  mint env s = Some s' <->
  minted_asa s = 0 /\
  exists stored proposal created,
    boxes s !! proposals (winning_proposal s) = Some stored /\
    NFTProposal_fields env stored = Some proposal /\
    InnerTxn_execute env
      (AssetCreate (name proposal) (unit_name proposal) (reserve proposal)
         (current_application_address env) asset_url 1 0) = Some created /\
    s' = with_minted_asa created s.
Proof.
  unfold mint, Box.get. split.
  - destruct (minted_asa s =? 0) eqn:Hm; [|discriminate]. cbn.
    apply Z.eqb_eq in Hm.
    destruct (boxes s !! _) as [stored|]; [|discriminate]. cbn.
    destruct (NFTProposal_fields env stored) as [p|] eqn:Hp; [|discriminate].
    cbn.
    destruct (InnerTxn_execute env _) as [id|] eqn:Hx; [|discriminate]. cbn.
    intros [= <-]. split; [lia|]. now exists stored, p, id.
  - intros (Hm & stored & p & id & -> & Hp & Hx & ->).
    rewrite Hm. cbn. rewrite Hp. cbn. now rewrite Hx.
Qed.

Lemma update_Some (env : Env) (asa : Z) (s s' : DAOState) :
  update env asa s = Some s' <->
  minted_asa s <> 0 /\
  exists stored created,
    boxes s !! proposals (winning_update s) = Some stored /\
    InnerTxn_execute env
      (AssetReconfigure (minted_asa s) stored
         (current_application_address env) 0) = Some created /\
    s' = s.
Proof.
  unfold update, Box.get. split.
  - destruct (minted_asa s =? 0) eqn:Hm; [discriminate|]. cbn.
    apply Z.eqb_neq in Hm.
    destruct (boxes s !! _) as [stored|]; [|discriminate]. cbn.
    destruct (InnerTxn_execute env _) as [id|] eqn:Hx; [|discriminate]. cbn.
    intros [= <-]. split; [lia|]. now exists stored, id.
  - intros (Hm & stored & id & -> & Hx & ->).
    apply Z.eqb_neq in Hm. rewrite Hm. cbn. now rewrite Hx.
Qed.

Lemma vote_Some (env : Env) (proposer : string) (proposal_id : Z)
    (s s' : DAOState) :
  vote env proposer proposal_id s = Some s' <->
  minted_asa s = 0 /\
  exists t, cast_ballot votes has_voted (Txn_sender env)
              (Tuple2_encode proposer proposal_id) (proposal_ballots s)
            = Some t /\
    s' = with_proposal_ballots s t.
Proof.
  rewrite vote_unfold. destruct (minted_asa s =? 0) eqn:Hm;
    [apply Z.eqb_eq in Hm | apply Z.eqb_neq in Hm].
  - destruct (cast_ballot _ _ _ _ _) as [t|]; cbn; split.
    + intros [= <-]. split; [exact Hm | now exists t].
    + now intros (_ & t' & [= <-] & ->).
    + discriminate.
    + now intros (_ & t' & [=] & _).
  - split; [discriminate|]. intros [Hz _]. contradiction.
Qed.

Lemma vote_on_update_Some (env : Env) (proposer : string) (proposal_id : Z)
    (s s' : DAOState) :
  vote_on_update env proposer proposal_id s = Some s' <->
  minted_asa s = 0 /\
  exists t, cast_ballot update_votes update_has_voted (Txn_sender env)
              (Tuple2_encode proposer proposal_id) (update_ballots s)
            = Some t /\
    s' = with_update_ballots s t.
Proof.
  rewrite vote_on_update_unfold. destruct (minted_asa s =? 0) eqn:Hm;
    [apply Z.eqb_eq in Hm | apply Z.eqb_neq in Hm].
  - destruct (cast_ballot _ _ _ _ _) as [t|]; cbn; split.
    + intros [= <-]. split; [exact Hm | now exists t].
    + now intros (_ & t' & [= <-] & ->).
    + discriminate.
    + now intros (_ & t' & [=] & _).
  - split; [discriminate|]. intros [Hz _]. contradiction.
Qed.

(** ** What a call may touch *)

(** No method deletes a box. *)
Lemma call_keeps_boxes (env : Env) (c : Call) (s s' : DAOState)
    (box : string) :
  call env c s = Some s' ->
  is_Some (boxes s !! box) -> is_Some (boxes s' !! box).
Proof.
  intros Hcall Hbox. destruct c; cbn in Hcall.
  - apply add_proposal_Some in Hcall as (_ & _ & _ & _ & _ & ->). cbn.
    rewrite lookup_insert_is_Some. destruct (decide (proposals
      (Tuple2_encode (Txn_sender env) proposal_id) = box)); auto.
  - apply vote_Some in Hcall as (_ & t & Ht & ->).
    apply cast_ballot_Some in Ht as (_ & n & _ & _ & ->). cbn.
    rewrite !lookup_insert_is_Some'. auto.
  - apply mint_Some in Hcall as (_ & ? & ? & ? & _ & _ & _ & ->). exact Hbox.
  - apply update_Some in Hcall as (_ & ? & ? & _ & _ & ->). exact Hbox.
  - apply add_update_Some in Hcall as (_ & _ & _ & _ & _ & ->). cbn.
    rewrite lookup_insert_is_Some'. auto.
  - apply vote_on_update_Some in Hcall as (_ & t & Ht & ->).
    apply cast_ballot_Some in Ht as (_ & n & _ & _ & ->). cbn.
    rewrite !lookup_insert_is_Some'. auto.
Qed.

Lemma exec_keeps_boxes (env : Env) (c : Call) (s : DAOState) (box : string) :
  is_Some (boxes s !! box) -> is_Some (boxes (exec env c s) !! box).
Proof.
  unfold exec. destruct (call env c s) eqn:Hcall; [|auto].
  now apply call_keeps_boxes with (1 := Hcall).
Qed.

Lemma run_keeps_boxes (trace : list (Env * Call)) (s : DAOState)
    (box : string) :
  is_Some (boxes s !! box) -> is_Some (boxes (run trace s) !! box).
Proof.
  revert s. induction trace as [|[env c] rest IH]; intros s Hbox; cbn;
    [exact Hbox|].
  apply IH. now apply exec_keeps_boxes.
Qed.

(** Only [mint] writes [minted_asa]. *)
Lemma call_minted_asa (env : Env) (c : Call) (s s' : DAOState) :
  call env c s = Some s' -> c <> Mint -> minted_asa s' = minted_asa s.
Proof.
  intros Hcall Hc. destruct c; cbn in Hcall; try congruence.
  - now apply add_proposal_Some in Hcall as (_ & _ & _ & _ & _ & ->).
  - now apply vote_Some in Hcall as (_ & t & _ & ->).
  - now apply update_Some in Hcall as (_ & ? & ? & _ & _ & ->).
  - now apply add_update_Some in Hcall as (_ & _ & _ & _ & _ & ->).
  - now apply vote_on_update_Some in Hcall as (_ & t & _ & ->).
Qed.

(** ** Phase gates *)

Lemma exec_rejected (env : Env) (c : Call) (s : DAOState) :
  call env c s = None -> exec env c s = s.
Proof. unfold exec. now intros ->. Qed.

(** C2: [vote_on_update] is gated on the pre-mint condition: it is rejected
    whenever [minted_asa] is not zero, and when [minted_asa] is zero it is
    the ballot algorithm of [vote] (tally started at zero on first use,
    incremented, leader replaced only on a strictly greater tally, voter
    flagged) run on [update_votes], [update_has_voted],
    [winning_update_votes] and [winning_update]. *)
Theorem vote_on_update_pre_mint_gate (env : Env) (proposer : string)
    (proposal_id : Z) (s : DAOState) :
  vote_on_update env proposer proposal_id s =
    (if minted_asa s =? 0 then
       with_update_ballots s <$>
         cast_ballot update_votes update_has_voted (Txn_sender env)
           (Tuple2_encode proposer proposal_id) (update_ballots s)
     else None)
  /\ vote env proposer proposal_id s =
    (if minted_asa s =? 0 then
       with_proposal_ballots s <$>
         cast_ballot votes has_voted (Txn_sender env)
           (Tuple2_encode proposer proposal_id) (proposal_ballots s)
     else None).
Proof. split; [apply vote_on_update_unfold | apply vote_unfold]. Qed.

(** C7: [add_proposal] and [vote] are rejected whenever [minted_asa] is
    not zero, [add_update] and [update] whenever it is zero; a rejected
    call leaves the state as it was. *)
Theorem phase_gating (env : Env) (s : DAOState) :
  (minted_asa s <> 0 ->
   forall proposal proposal_id mbr_payment proposer voted_id,
     add_proposal env proposal proposal_id mbr_payment s = None /\
     vote env proposer voted_id s = None /\
     exec env (AddProposal proposal proposal_id mbr_payment) s = s /\
     exec env (Vote proposer voted_id) s = s) /\
  (minted_asa s = 0 ->
   forall reserve proposal_id mbr_payment asa,
     add_update env reserve proposal_id mbr_payment s = None /\
     update env asa s = None /\
     exec env (AddUpdate reserve proposal_id mbr_payment) s = s /\
     exec env (Update asa) s = s).
Proof.
  split.
  - intros Hm proposal proposal_id mbr_payment proposer voted_id.
    apply Z.eqb_neq in Hm.
    assert (Ha : add_proposal env proposal proposal_id mbr_payment s = None)
      by (unfold add_proposal; now rewrite Hm).
    assert (Hv : vote env proposer voted_id s = None)
      by (unfold vote; now rewrite Hm).
    repeat split; try assumption; now apply exec_rejected.
  - intros Hm reserve proposal_id mbr_payment asa.
    assert (Ha : add_update env reserve proposal_id mbr_payment s = None)
      by (unfold add_update; now rewrite Hm).
    assert (Hu : update env asa s = None)
      by (unfold update; now rewrite Hm).
    repeat split; try assumption; now apply exec_rejected.
Qed.

(** ** Funding *)

(** C3: for a submission whose other preconditions hold (right phase,
    payment addressed to the contract, key not yet registered), a payment
    strictly below the minimum-balance requirement after the write minus
    the requirement before it gets the call rejected, and the mapping has
    no entry for the key afterwards; a payment equal to that difference
    makes the call succeed.  Stated for [add_proposal] and for
    [add_update]. *)
Theorem funding_exactness (env : Env) (entry : string) (proposal_id : Z)
    (mbr_payment : PaymentTransaction) (s : DAOState) :
  let key := Tuple2_encode (Txn_sender env) proposal_id in
  let delta box :=
    minBalance env (<[box := entry]> (boxes s)) - minBalance env (boxes s) in
  receiver mbr_payment = current_application_address env ->
  0 <= amount mbr_payment ->
  (minted_asa s = 0 -> boxes s !! proposals key = None ->
   (amount mbr_payment < delta (proposals key) ->
    add_proposal env entry proposal_id mbr_payment s = None /\
    boxes (exec env (AddProposal entry proposal_id mbr_payment) s)
      !! proposals key = None) /\
   (amount mbr_payment = delta (proposals key) ->
    exists s',
      add_proposal env entry proposal_id mbr_payment s = Some s' /\
      boxes s' !! proposals key = Some entry)) /\
  (minted_asa s <> 0 -> boxes s !! update_proposals key = None ->
   (amount mbr_payment < delta (update_proposals key) ->
    add_update env entry proposal_id mbr_payment s = None /\
    boxes (exec env (AddUpdate entry proposal_id mbr_payment) s)
      !! update_proposals key = None) /\
   (amount mbr_payment = delta (update_proposals key) ->
    exists s',
      add_update env entry proposal_id mbr_payment s = Some s' /\
      boxes s' !! update_proposals key = Some entry)).
Proof.
  cbv zeta. intros Hrecv Hamt. split; intros Hm Hbox; split.
  - intros Hlow.
    assert (Hrej : add_proposal env entry proposal_id mbr_payment s = None).
    { destruct (add_proposal _ _ _ _ _) as [s'|] eqn:Hcall; [|reflexivity].
      apply add_proposal_Some in Hcall as (_ & _ & _ & _ & Hpay & _). lia. }
    split; [exact Hrej|]. now rewrite exec_rejected.
  - intros Hexact. eexists. split.
    + apply add_proposal_Some. repeat split; try eassumption; lia.
    + cbn. apply lookup_insert_eq.
  - intros Hlow.
    assert (Hrej : add_update env entry proposal_id mbr_payment s = None).
    { destruct (add_update _ _ _ _ _) as [s'|] eqn:Hcall; [|reflexivity].
      apply add_update_Some in Hcall as (_ & _ & _ & _ & Hpay & _). lia. }
    split; [exact Hrej|]. now rewrite exec_rejected.
  - intros Hexact. eexists. split.
    + apply add_update_Some. repeat split; try eassumption; lia.
    + cbn. apply lookup_insert_eq.
Qed.

(** ** Voting *)

(** C8: in the pre-mint phase, a vote by a sender without a voter flag for
    a key that has no entry in [proposals] succeeds all the same.  When
    the key has no tally yet, the call creates one, started at zero and
    incremented to one, flags the sender, and installs the key as
    [winning_proposal] exactly when one is greater than the leading count;
    the key still has no entry in [proposals] afterwards.  When the key
    already has a tally [n], the call stores [n + 1] instead. *)
Theorem vote_phantom_tally (env : Env) (proposer : string)
    (proposal_id : Z) (s : DAOState) :
  let key := Tuple2_encode proposer proposal_id in
  minted_asa s = 0 ->
  boxes s !! proposals key = None ->
  boxes s !! has_voted (Txn_sender env) = None ->
  forall n, current_tally (votes key) (boxes s) = Some n ->
  n + 1 <= Uint64.MAX ->
  exists s',
    vote env proposer proposal_id s = Some s' /\
    boxes s' = <[has_voted (Txn_sender env) := Bool_true]>
                 (<[votes key := Uint64.Itob (n + 1)]> (boxes s)) /\
    boxes s' !! votes key ≫= Uint64.Btoi = Some (n + 1) /\
    boxes s' !! proposals key = None /\
    winning_proposal_votes s' =
      (if winning_proposal_votes s <? n + 1 then n + 1
       else winning_proposal_votes s) /\
    winning_proposal s' =
      (if winning_proposal_votes s <? n + 1 then key
       else winning_proposal s) /\
    (boxes s !! votes key = None -> n = 0).
Proof.
  cbv zeta. intros Hm Hprop Hvoted n Hn Hmax.
  pose proof (current_tally_nonneg _ _ _ Hn) as H0.
  eexists. split.
  - apply vote_Some. split; [exact Hm|]. eexists. split; [|reflexivity].
    apply cast_ballot_Some. split; [exact Hvoted|].
    exists n. split; [exact Hn|]. split; [exact Hmax | reflexivity].
  - cbn. split; [reflexivity|]. split; [|split; [|split; [|split]]].
    + rewrite lookup_insert_ne
        by (apply not_eq_sym, votes_not_has_voted).
      rewrite lookup_insert_eq. cbn. apply Btoi_Itob. lia.
    + rewrite !lookup_insert_ne; [exact Hprop | |];
        unfold proposals, votes, has_voted; cbv [String.append]; congruence.
    + reflexivity.
    + reflexivity.
    + intros Hnone. unfold current_tally in Hn. rewrite Hnone in Hn.
      congruence.
Qed.

(** C4: once an account's [vote] has succeeded, every later [vote] sent by
    that account is rejected, whatever proposal it names and whatever
    calls were made in between: the account's [has_voted] flag is still
    there.  The rejected call leaves the state unchanged. *)
Theorem one_vote_per_account (env env' : Env) (proposer proposer' : string)
    (proposal_id proposal_id' : Z) (trace : list (Env * Call))
    (s s1 : DAOState) :
  vote env proposer proposal_id s = Some s1 ->
  Txn_sender env' = Txn_sender env ->
  let s2 := run trace s1 in
  is_Some (boxes s2 !! has_voted (Txn_sender env)) /\
  vote env' proposer' proposal_id' s2 = None /\
  exec env' (Vote proposer' proposal_id') s2 = s2.
Proof.
  intros Hvote Hsender s2.
  assert (Hflag : is_Some (boxes s2 !! has_voted (Txn_sender env))).
  { apply run_keeps_boxes.
    apply vote_Some in Hvote as (_ & t & Ht & ->).
    apply cast_ballot_Some in Ht as (_ & n & _ & _ & ->). cbn.
    rewrite lookup_insert_eq. eauto. }
  assert (Hrej : vote env' proposer' proposal_id' s2 = None).
  { rewrite vote_unfold. destruct (minted_asa s2 =? 0); [|reflexivity].
    unfold cast_ballot. cbn. rewrite Hsender.
    destruct Hflag as [v ->]. reflexivity. }
  repeat split; [exact Hflag | exact Hrej | now apply exec_rejected].
Qed.

(** How one successful call moves the proposal leader: not at all, or it
    is a [vote] whose incremented tally is strictly above the old leading
    count. *)
Lemma call_leader (env : Env) (c : Call) (s s' : DAOState) :
  call env c s = Some s' ->
  (winning_proposal_votes s' = winning_proposal_votes s /\
   winning_proposal s' = winning_proposal s) \/
  (exists proposer proposal_id n,
     c = Vote proposer proposal_id /\
     current_tally (votes (Tuple2_encode proposer proposal_id)) (boxes s)
       = Some n /\
     winning_proposal_votes s < n + 1 /\
     winning_proposal_votes s' = n + 1 /\
     winning_proposal s' = Tuple2_encode proposer proposal_id).
Proof.
  intros Hcall. destruct c; cbn in Hcall.
  - left. now apply add_proposal_Some in Hcall as (_ & _ & _ & _ & _ & ->).
  - apply vote_Some in Hcall as (_ & t & Ht & ->).
    apply cast_ballot_Some in Ht as (_ & n & Hn & _ & ->). cbn.
    destruct (winning_proposal_votes s <? n + 1) eqn:Hlt.
    + right. exists proposer, proposal_id, n. apply Z.ltb_lt in Hlt. auto.
    + left. auto.
  - left. now apply mint_Some in Hcall as (_ & ? & ? & ? & _ & _ & _ & ->).
  - left. now apply update_Some in Hcall as (_ & ? & ? & _ & _ & ->).
  - left. now apply add_update_Some in Hcall as (_ & _ & _ & _ & _ & ->).
  - left. now apply vote_on_update_Some in Hcall as (_ & t & _ & ->).
Qed.

Lemma exec_leader_votes_mono (env : Env) (c : Call) (s : DAOState) :
  winning_proposal_votes s <= winning_proposal_votes (exec env c s).
Proof.
  unfold exec. destruct (call env c s) as [s'|] eqn:Hcall; [|lia].
  destruct (call_leader _ _ _ _ Hcall)
    as [[-> _] | (p & i & n & _ & _ & Hlt & -> & _)]; lia.
Qed.

(** C5: [winning_proposal_votes] never decreases along a call sequence.
    A call changes it only if it is a [vote] whose freshly incremented
    tally is strictly greater than the previous leading count, and that
    same call sets [winning_proposal] to the voted key; a call that leaves
    the count alone leaves [winning_proposal] alone, so a vote that brings
    a tally up to at most the leading count does not displace the
    leader. *)
Theorem winner_monotonicity :
  (forall trace s,
     winning_proposal_votes s <= winning_proposal_votes (run trace s)) /\
  (forall env c s,
     let s' := exec env c s in
     (winning_proposal_votes s' <> winning_proposal_votes s ->
      exists proposer proposal_id n,
        c = Vote proposer proposal_id /\
        current_tally (votes (Tuple2_encode proposer proposal_id)) (boxes s)
          = Some n /\
        winning_proposal_votes s < n + 1 /\
        winning_proposal_votes s' = n + 1 /\
        winning_proposal s' = Tuple2_encode proposer proposal_id) /\
     (winning_proposal_votes s' = winning_proposal_votes s ->
      winning_proposal s' = winning_proposal s) /\
     (forall proposer proposal_id n,
        c = Vote proposer proposal_id ->
        current_tally (votes (Tuple2_encode proposer proposal_id)) (boxes s)
          = Some n ->
        n + 1 <= winning_proposal_votes s ->
        winning_proposal_votes s' = winning_proposal_votes s /\
        winning_proposal s' = winning_proposal s)).
Proof.
  split.
  - induction trace as [|[env c] rest IH]; intros s; cbn; [lia|].
    pose proof (exec_leader_votes_mono env c s). specialize (IH (exec env c s)).
    lia.
  - intros env c s. cbv zeta. unfold exec.
    destruct (call env c s) as [s'|] eqn:Hcall.
    + destruct (call_leader _ _ _ _ Hcall)
        as [[Hv Hw] | (p & i & n & -> & Hn & Hlt & Hv & Hw)].
      * split; [intros Hne; contradiction|]. split; [auto|]. auto.
      * split; [intros _; exists p, i, n; auto|].
        split; [intros Heq; lia|].
        intros p' i' n' [= <- <-] Hn' Hle. rewrite Hn in Hn'.
        injection Hn' as <-. lia.
    + split; [intros Hne; contradiction|]. auto.
Qed.

(** ** Minting *)

Lemma exec_post_mint (env : Env) (c : Call) (s : DAOState) :
  minted_asa s <> 0 -> minted_asa (exec env c s) = minted_asa s.
Proof.
  intros Hm. unfold exec. destruct (call env c s) as [s'|] eqn:Hcall;
    [|reflexivity].
  assert (Hc : c = Mint \/ c <> Mint)
    by (destruct c; (now left) || (now right)).
  destruct Hc as [-> | Hc].
  - cbn in Hcall. apply mint_Some in Hcall as [Hz _]. contradiction.
  - now apply call_minted_asa with (1 := Hcall).
Qed.

Lemma run_post_mint (trace : list (Env * Call)) (s : DAOState) :
  minted_asa s <> 0 -> minted_asa (run trace s) = minted_asa s.
Proof.
  revert s. induction trace as [|[env c] rest IH]; intros s Hm; cbn;
    [reflexivity|].
  rewrite IH by (now rewrite exec_post_mint). now apply exec_post_mint.
Qed.

Lemma mint_post_mint (env : Env) (s : DAOState) :
  minted_asa s <> 0 -> mint env s = None.
Proof. intros Hm. apply Z.eqb_neq in Hm. unfold mint. now rewrite Hm. Qed.

Lemma no_mint_post_mint (trace : list (Env * Call)) (s : DAOState) :
  minted_asa s <> 0 -> successful_mints trace s = 0%nat.
Proof.
  revert s. induction trace as [|[env c] rest IH]; intros s Hm; cbn;
    [reflexivity|].
  rewrite IH by (now rewrite exec_post_mint).
  destruct c; cbn; try reflexivity. now rewrite mint_post_mint.
Qed.

(** C6: [mint] succeeds at most once.  With a ledger that never numbers
    an asset zero, a successful [mint] starts from [minted_asa = 0] and
    sets [minted_asa] to the id the ledger returned for the created
    asset, which is not zero; after that [minted_asa] keeps this value
    and every [mint] is rejected, whatever calls come in between.  So a
    call sequence starting at [create] contains at most one successful
    [mint]. *)
Theorem mint_at_most_once :
  (forall env s s',
     asset_ids_nonzero env ->
     mint env s = Some s' ->
     minted_asa s = 0 /\
     minted_asa s' <> 0 /\
     (exists tx, InnerTxn_execute env tx = Some (minted_asa s')) /\
     forall trace env',
       minted_asa (run trace s') = minted_asa s' /\
       mint env' (run trace s') = None) /\
  (forall trace,
     Forall (fun ec => asset_ids_nonzero ec.1) trace ->
     (successful_mints trace create <= 1)%nat).
Proof.
  assert (Hfirst : forall env s s',
     asset_ids_nonzero env -> mint env s = Some s' -> minted_asa s' <> 0).
  { intros env s s' Hids Hmint.
    apply mint_Some in Hmint as (_ & st & p & id & _ & _ & Hx & ->).
    cbn. now apply Hids in Hx. }
  split.
  - intros env s s' Hids Hmint. pose proof (Hfirst _ _ _ Hids Hmint) as Hnz.
    apply mint_Some in Hmint as (Hz & st & p & id & _ & _ & Hx & ->).
    split; [exact Hz|]. split; [exact Hnz|].
    split; [eexists; exact Hx|].
    intros trace env'. split; [now apply run_post_mint|].
    apply mint_post_mint. now rewrite run_post_mint.
  - intros trace. generalize create.
    induction trace as [|[env c] rest IH]; intros s Hall; cbn; [lia|].
    apply Forall_cons in Hall as [Hids Hall]. cbn in Hids.
    specialize (IH (exec env c s) Hall).
    destruct c; cbn; try lia.
    destruct (mint env s) as [s'|] eqn:Hmint; [|cbn; lia].
    rewrite no_mint_post_mint; [lia|].
    unfold exec. cbn. rewrite Hmint. now apply Hfirst with (2 := Hmint).
Qed.

(** ** Applying the winning update *)

(** C10: a successful [update] changes nothing in the contract state: the
    five global values and the whole box store, hence all six mappings,
    are the same before and after.  Its only effect is the inner
    asset-configuration transaction, and the same call succeeds again on
    the resulting state. *)
Theorem update_frame (env : Env) (asa : Z) (s s' : DAOState) :
  update env asa s = Some s' ->
  s' = s /\
  (exists stored created,
     InnerTxn_execute env
       (AssetReconfigure (minted_asa s) stored
          (current_application_address env) 0) = Some created) /\
  update env asa s' = Some s'.
Proof.
  intros Hupd. pose proof Hupd as Hagain.
  apply update_Some in Hupd as (_ & stored & created & _ & Hx & ->).
  split; [reflexivity|]. split; [now exists stored, created | exact Hagain].
Qed.

(** ** The leader is the maximum tally *)

Lemma strip_prefix_Some (pfx box k : string) :
  strip_prefix pfx box = Some k <-> box = pfx +:+ k.
Proof.
  revert box. induction pfx as [|a pfx IH]; intros box.
  - cbn. change ("" +:+ k) with k. split; congruence.
  - destruct box as [|b box]; cbn.
    + split; discriminate.
    + change (String a pfx +:+ k) with (String a (pfx +:+ k)).
      destruct (Ascii.eqb a b) eqn:Hab.
      * apply Ascii.eqb_eq in Hab as ->. rewrite IH. split; congruence.
      * apply Ascii.eqb_neq in Hab. split; [discriminate | congruence].
Qed.

Lemma elem_of_mapping_tallies (pfx : string) (b : gmap string string)
    (x : Z) :
  x ∈ mapping_tallies pfx b <->
  exists k v, b !! (pfx +:+ k) = Some v /\ Uint64.Btoi v = Some x.
Proof.
  unfold mapping_tallies. rewrite list_elem_of_omap. split.
  - intros ([box v] & Hin & Hf). cbn in Hf.
    apply elem_of_map_to_list in Hin.
    destruct (strip_prefix pfx box) as [k|] eqn:Hk; [|discriminate].
    apply strip_prefix_Some in Hk as ->. now exists k, v.
  - intros (k & v & Hb & Hv). exists (pfx +:+ k, v). split.
    + now apply elem_of_map_to_list.
    + cbn. now rewrite (proj2 (strip_prefix_Some pfx _ k) eq_refl).
Qed.

Lemma foldr_max_lower (l : list Z) : 0 <= foldr Z.max 0 l.
Proof. induction l as [|x l IH]; cbn; lia. Qed.

Lemma foldr_max_elem (l : list Z) (x : Z) : x ∈ l -> x <= foldr Z.max 0 l.
Proof.
  induction l as [|y l IH]; intros Hin.
  - now apply elem_of_nil in Hin.
  - apply elem_of_cons in Hin as [-> | Hin]; cbn; [lia|].
    specialize (IH Hin). lia.
Qed.

Lemma foldr_max_upper (l : list Z) (m : Z) :
  0 <= m -> (forall x, x ∈ l -> x <= m) -> foldr Z.max 0 l <= m.
Proof.
  intros Hm. induction l as [|y l IH]; intros Hall; cbn; [exact Hm|].
  assert (y <= m) by (apply Hall; left).
  assert (foldr Z.max 0 l <= m) by (apply IH; intros x Hx; apply Hall; now right).
  lia.
Qed.

Lemma ballots_ok_max (pfx : string) (t : Ballots) :
  ballots_ok pfx t -> max_tally pfx (store t) = leader_votes t.
Proof.
  intros (Hpos & Hall & Hlead). unfold max_tally. apply Z.le_antisymm.
  - apply foldr_max_upper; [lia|]. intros x Hx.
    apply elem_of_mapping_tallies in Hx as (k & v & Hb & Hv).
    destruct (Hall _ _ Hb) as (n & -> & Hn).
    rewrite Btoi_Itob in Hv by lia. injection Hv as <-. lia.
  - destruct (Z.eq_dec (leader_votes t) 0) as [-> | Hnz];
      [apply foldr_max_lower|].
    apply foldr_max_elem, elem_of_mapping_tallies.
    specialize (Hlead Hnz). exists (leader t), (Uint64.Itob (leader_votes t)).
    split; [exact Hlead | now apply Btoi_Itob].
Qed.

Ltac names_differ :=
  unfold proposals, votes, has_voted, update_proposals, update_votes,
    update_has_voted;
  cbv [String.append]; congruence.

Lemma ballots_ok_frame (pfx : string) (t : Ballots)
    (b : gmap string string) :
  ballots_ok pfx t ->
  (forall k, b !! (pfx +:+ k) = store t !! (pfx +:+ k)) ->
  ballots_ok pfx
    {| leader_votes := leader_votes t; leader := leader t; store := b |}.
Proof.
  intros (Hpos & Hall & Hlead) Hsame. split; [exact Hpos|]. cbn. split.
  - intros k v. rewrite Hsame. apply Hall.
  - intros Hnz. rewrite Hsame. now apply Hlead.
Qed.

Lemma cast_ballot_ok (pfx : string) (voted : string -> string)
    (voter key : string) (t t' : Ballots) :
  (forall k, pfx +:+ k <> voted voter) ->
  ballots_ok pfx t ->
  cast_ballot (String.append pfx) voted voter key t = Some t' ->
  ballots_ok pfx t'.
Proof.
  intros Hne (Hpos & Hall & Hlead) Hcast.
  apply cast_ballot_Some in Hcast as (_ & n & Hn & Hmax & ->).
  assert (Hcase : (store t !! (pfx +:+ key) = None /\ n = 0) \/
            (store t !! (pfx +:+ key) = Some (Uint64.Itob n) /\
             1 <= n <= leader_votes t)).
  { unfold current_tally in Hn.
    destruct (store t !! (pfx +:+ key)) as [v|] eqn:Hv.
    - destruct (Hall _ _ Hv) as (m & -> & Hm).
      rewrite Btoi_Itob in Hn by lia. injection Hn as <-. now right.
    - injection Hn as <-. now left. }
  assert (Hn0 : 0 <= n <= leader_votes t) by (destruct Hcase; lia).
  split; [|split]; cbn [leader_votes leader store].
  - destruct (leader_votes t <? n + 1) eqn:Hlt; unfold Uint64.MAX in *; lia.
  - intros k v. rewrite lookup_insert_ne by (apply not_eq_sym, Hne).
    destruct (decide (pfx +:+ key = pfx +:+ k)) as [Heq | Hk].
    + rewrite <- Heq, lookup_insert_eq. intros [= <-]. exists (n + 1).
      split; [reflexivity|]. destruct (leader_votes t <? n + 1) eqn:Hlt; lia.
    + rewrite lookup_insert_ne by exact Hk. intros Hv.
      destruct (Hall _ _ Hv) as (m & -> & Hm). exists m.
      split; [reflexivity|]. destruct (leader_votes t <? n + 1) eqn:Hlt; lia.
  - intros Hnz. rewrite lookup_insert_ne by (apply not_eq_sym, Hne).
    destruct (leader_votes t <? n + 1) eqn:Hlt.
    + apply lookup_insert_eq.
    + apply Z.ltb_ge in Hlt. assert (Hold : leader_votes t <> 0) by lia.
      specialize (Hlead Hold).
      destruct (decide (pfx +:+ key = pfx +:+ leader t)) as [Heq | Hk].
      * exfalso. rewrite <- Heq in Hlead.
        destruct Hcase as [[Hnone _] | [Hsome Hrange]]; [congruence|].
        rewrite Hsome in Hlead.
        assert (Hitob : Uint64.Itob n = Uint64.Itob (leader_votes t))
          by congruence.
        apply Itob_inj in Hitob; lia.
      * rewrite lookup_insert_ne by exact Hk. exact Hlead.
Qed.

Lemma call_consistent (env : Env) (c : Call) (s s' : DAOState) :
  call env c s = Some s' -> tallies_consistent s -> tallies_consistent s'.
Proof.
  intros Hcall [Hp Hu]. destruct c; cbn in Hcall.
  - apply add_proposal_Some in Hcall as (_ & _ & _ & _ & _ & ->).
    split; [apply (ballots_ok_frame _ _ _ Hp) | apply (ballots_ok_frame _ _ _ Hu)];
      intros k; cbn; apply lookup_insert_ne; names_differ.
  - apply vote_Some in Hcall as (_ & t & Ht & ->). split.
    + apply (cast_ballot_ok _ _ _ _ _ _ (fun k => votes_not_has_voted k _)
               Hp Ht).
    + apply cast_ballot_Some in Ht as (_ & n & _ & _ & ->).
      apply (ballots_ok_frame _ _ _ Hu). intros k. cbn.
      rewrite !lookup_insert_ne by names_differ. reflexivity.
  - apply mint_Some in Hcall as (_ & ? & ? & ? & _ & _ & _ & ->).
    split; assumption.
  - apply update_Some in Hcall as (_ & ? & ? & _ & _ & ->). split; assumption.
  - apply add_update_Some in Hcall as (_ & _ & _ & _ & _ & ->).
    split; [apply (ballots_ok_frame _ _ _ Hp) | apply (ballots_ok_frame _ _ _ Hu)];
      intros k; cbn; apply lookup_insert_ne; names_differ.
  - apply vote_on_update_Some in Hcall as (_ & t & Ht & ->). split.
    + apply cast_ballot_Some in Ht as (_ & n & _ & _ & ->).
      apply (ballots_ok_frame _ _ _ Hp). intros k. cbn.
      rewrite !lookup_insert_ne by names_differ. reflexivity.
    + apply (cast_ballot_ok _ _ _ _ _ _
               (fun k => update_votes_not_update_has_voted k _) Hu Ht).
Qed.

Lemma create_consistent : tallies_consistent create.
Proof.
  split; (split; [unfold Uint64.MAX; cbn; lia|]); cbn; split;
    try (intros k v Hk; now rewrite lookup_empty in Hk); congruence.
Qed.

Lemma reachable_consistent (s : DAOState) :
  reachable s -> tallies_consistent s.
Proof.
  induction 1 as [|env c s s' _ IH Hcall]; [apply create_consistent|].
  now apply call_consistent with (1 := Hcall).
Qed.

Lemma reachable_exec (env : Env) (c : Call) (s : DAOState) :
  reachable s -> reachable (exec env c s).
Proof.
  intros Hs. unfold exec. destruct (call env c s) eqn:Hcall; [|exact Hs].
  now apply reachable_call with (2 := Hcall).
Qed.

Lemma reachable_run (trace : list (Env * Call)) (s : DAOState) :
  reachable s -> reachable (run trace s).
Proof.
  revert s. induction trace as [|[env c] rest IH]; intros s Hs; cbn;
    [exact Hs|].
  now apply IH, reachable_exec.
Qed.

(** C9: in every state reached from [create] by successful calls,
    [winning_proposal_votes] is the largest tally in the [votes] mapping
    and [winning_update_votes] the largest tally in [update_votes] (zero
    for a mapping without entries); when that maximum is not zero,
    [winning_proposal] (respectively [winning_update]) is the encoded key
    of an entry whose tally equals it. *)
Theorem leader_is_max_tally (s : DAOState) :
  reachable s ->
  winning_proposal_votes s = max_tally "v-" (boxes s) /\
  winning_update_votes s = max_tally "uv-" (boxes s) /\
  (max_tally "v-" (boxes s) <> 0 ->
   boxes s !! votes (winning_proposal s) ≫= Uint64.Btoi
   = Some (max_tally "v-" (boxes s))) /\
  (max_tally "uv-" (boxes s) <> 0 ->
   boxes s !! update_votes (winning_update s) ≫= Uint64.Btoi
   = Some (max_tally "uv-" (boxes s))) /\
  max_tally "v-" ∅ = 0 /\ max_tally "uv-" ∅ = 0.
Proof.
  intros Hreach. destruct (reachable_consistent s Hreach) as [Hp Hu].
  pose proof (ballots_ok_max _ _ Hp) as Hmp.
  pose proof (ballots_ok_max _ _ Hu) as Hmu. cbn in Hmp, Hmu.
  rewrite Hmp, Hmu.
  split; [reflexivity|]. split; [reflexivity|].
  destruct Hp as (Hpr & _ & Hpl). destruct Hu as (Hur & _ & Hul).
  cbn in Hpr, Hpl, Hur, Hul.
  split; [|split; [|split; reflexivity]].
  - intros Hnz. unfold votes. rewrite (Hpl Hnz). cbn. now apply Btoi_Itob.
  - intros Hnz. unfold update_votes. rewrite (Hul Hnz). cbn.
    now apply Btoi_Itob.
Qed.

(** ** The reserve applied by [update] *)

(** C1, on the code: [update] looks the decoded [winning_update] key up in
    [proposals], not in [update_proposals].  In the first run the winning
    update is registered in [update_proposals] and [update] is rejected on
    every ledger, because [proposals] has nothing under that key; in the
    second run [update_proposals] has no entry for the winning update and
    [update] still succeeds, sending the bytes stored in [proposals] as the
    reserve. *)
Theorem update_reads_proposals_mapping :
  (let s := run Runs.update_registered create in
   minted_asa s <> 0 /\
   boxes s !! update_proposals (winning_update s) = Some Ledger.treasury /\
   boxes s !! proposals (winning_update s) = None /\
   forall env asa, update env asa s = None) /\
  (let s := run Runs.raw_proposal create in
   minted_asa s <> 0 /\
   boxes s !! update_proposals (winning_update s) = None /\
   boxes s !! proposals (winning_update s) = Some Ledger.treasury /\
   update (Ledger.env Ledger.alice) 1001 s = Some s).
Proof.
  split; cbv zeta.
  - assert (Hnone : boxes (run Runs.update_registered create)
                      !! proposals (winning_update
                                      (run Runs.update_registered create))
                    = None) by (vm_compute; reflexivity).
    split; [vm_compute; discriminate|].
    split; [vm_compute; reflexivity|]. split; [exact Hnone|].
    intros env asa.
    destruct (update env asa _) as [s'|] eqn:Hupd; [|reflexivity].
    apply update_Some in Hupd as (_ & stored & _ & Hstored & _).
    rewrite Hnone in Hstored. discriminate.
  - split; [vm_compute; discriminate|].
    repeat split; vm_compute; reflexivity.
Qed.

(** ** Instances on the sample ledger *)

Lemma funding_exactness_witness :
  (exists s',
     add_proposal (Ledger.env Ledger.xavier) Ledger.artwork 1
       (Ledger.pay 41700) create = Some s' /\
     boxes s' !! proposals (Tuple2_encode Ledger.xavier 1)
     = Some Ledger.artwork) /\
  add_proposal (Ledger.env Ledger.xavier) Ledger.artwork 1
    (Ledger.pay 41699) create = None /\
  (exists s',
     add_update (Ledger.env Ledger.yara) Ledger.treasury 1
       (Ledger.pay 32500) (run Runs.minted create) = Some s' /\
     boxes s' !! update_proposals (Tuple2_encode Ledger.yara 1)
     = Some Ledger.treasury) /\
  add_update (Ledger.env Ledger.yara) Ledger.treasury 1
    (Ledger.pay 32499) (run Runs.minted create) = None.
Proof.
  split; [|split; [|split]].
  - destruct (funding_exactness (Ledger.env Ledger.xavier) Ledger.artwork 1
                (Ledger.pay 41700) create) as [Hp _];
      [reflexivity | cbn; lia |].
    apply Hp; [reflexivity | reflexivity | vm_compute; reflexivity].
  - destruct (funding_exactness (Ledger.env Ledger.xavier) Ledger.artwork 1
                (Ledger.pay 41699) create) as [Hp _];
      [reflexivity | cbn; lia |].
    apply Hp; [reflexivity | reflexivity | vm_compute; reflexivity].
  - destruct (funding_exactness (Ledger.env Ledger.yara) Ledger.treasury 1
                (Ledger.pay 32500) (run Runs.minted create)) as [_ Hu];
      [reflexivity | cbn; lia |].
    apply Hu; [vm_compute; discriminate | vm_compute; reflexivity
              | vm_compute; reflexivity].
  - destruct (funding_exactness (Ledger.env Ledger.yara) Ledger.treasury 1
                (Ledger.pay 32499) (run Runs.minted create)) as [_ Hu];
      [reflexivity | cbn; lia |].
    apply Hu; [vm_compute; discriminate | vm_compute; reflexivity
              | vm_compute; reflexivity].
Defined.

Lemma one_vote_per_account_witness :
  let s := run [ (Ledger.env Ledger.xavier,
                  AddProposal Ledger.artwork 1 (Ledger.pay 41700)) ] create in
  let s1 := exec (Ledger.env Ledger.alice) (Vote Ledger.xavier 1) s in
  let s2 := run [ (Ledger.env Ledger.bob, Vote Ledger.xavier 1) ] s1 in
  is_Some (boxes s2 !! has_voted Ledger.alice) /\
  vote (Ledger.env Ledger.alice) Ledger.yara 5 s2 = None /\
  exec (Ledger.env Ledger.alice) (Vote Ledger.yara 5) s2 = s2.
Proof.
  cbv zeta.
  apply (one_vote_per_account (Ledger.env Ledger.alice)
           (Ledger.env Ledger.alice) Ledger.xavier Ledger.yara 1 5
           [ (Ledger.env Ledger.bob, Vote Ledger.xavier 1) ]
           (run [ (Ledger.env Ledger.xavier,
                   AddProposal Ledger.artwork 1 (Ledger.pay 41700)) ]
              create)).
  - vm_compute. reflexivity.
  - reflexivity.
Defined.

Lemma winner_monotonicity_witness :
  let s := run [ (Ledger.env Ledger.alice, Vote Ledger.xavier 1);
                 (Ledger.env Ledger.bob, Vote Ledger.yara 1);
                 (Ledger.env Ledger.xavier, Vote Ledger.xavier 1) ] create in
  let s' := exec (Ledger.env Ledger.yara) (Vote Ledger.yara 1) s in
  winning_proposal_votes s' = winning_proposal_votes s /\
  winning_proposal s' = winning_proposal s.
Proof.
  cbv zeta.
  apply (proj2 (proj2 (proj2 winner_monotonicity (Ledger.env Ledger.yara)
                         (Vote Ledger.yara 1) _)) Ledger.yara 1 1).
  - reflexivity.
  - vm_compute. reflexivity.
  - vm_compute. discriminate.
Defined.

Lemma ledger_asset_ids_nonzero (sender : string) :
  asset_ids_nonzero (Ledger.env sender).
Proof.
  intros n u r m url total fee id. cbn.
  destruct (Ledger.is_address r && Ledger.is_address m);
    [intros [= <-]; lia | discriminate].
Defined.

Lemma mint_at_most_once_witness :
  let s := run Runs.voted create in
  let s' := exec (Ledger.env Ledger.bob) Mint s in
  (minted_asa s = 0 /\
   minted_asa s' <> 0 /\
   (exists tx, InnerTxn_execute (Ledger.env Ledger.bob) tx
               = Some (minted_asa s')) /\
   forall trace env',
     minted_asa (run trace s') = minted_asa s' /\
     mint env' (run trace s') = None) /\
  (successful_mints (Runs.minted ++ [ (Ledger.env Ledger.alice, Mint) ])
     create <= 1)%nat.
Proof.
  cbv zeta. split.
  - apply (proj1 mint_at_most_once (Ledger.env Ledger.bob)).
    + apply ledger_asset_ids_nonzero.
    + vm_compute. reflexivity.
  - apply (proj2 mint_at_most_once).
    repeat constructor; apply ledger_asset_ids_nonzero.
Defined.

Lemma phase_gating_witness :
  (let s := run Runs.minted create in
   add_proposal (Ledger.env Ledger.yara) Ledger.artwork 2
     (Ledger.pay 41700) s = None /\
   vote (Ledger.env Ledger.yara) Ledger.xavier 1 s = None /\
   exec (Ledger.env Ledger.yara)
     (AddProposal Ledger.artwork 2 (Ledger.pay 41700)) s = s /\
   exec (Ledger.env Ledger.yara) (Vote Ledger.xavier 1) s = s) /\
  (let s := run Runs.voted create in
   add_update (Ledger.env Ledger.yara) Ledger.treasury 1
     (Ledger.pay 32500) s = None /\
   update (Ledger.env Ledger.yara) 1001 s = None /\
   exec (Ledger.env Ledger.yara)
     (AddUpdate Ledger.treasury 1 (Ledger.pay 32500)) s = s /\
   exec (Ledger.env Ledger.yara) (Update 1001) s = s).
Proof.
  split; cbv zeta.
  - apply (proj1 (phase_gating (Ledger.env Ledger.yara)
                    (run Runs.minted create))).
    vm_compute. discriminate.
  - apply (proj2 (phase_gating (Ledger.env Ledger.yara)
                    (run Runs.voted create))).
    vm_compute. reflexivity.
Defined.

Lemma vote_phantom_tally_witness :
  exists s',
    vote (Ledger.env Ledger.alice) Ledger.yara 9 create = Some s' /\
    boxes s' !! votes (Tuple2_encode Ledger.yara 9) ≫= Uint64.Btoi
    = Some (0 + 1) /\
    boxes s' !! proposals (Tuple2_encode Ledger.yara 9) = None.
Proof.
  destruct (vote_phantom_tally (Ledger.env Ledger.alice) Ledger.yara 9
              create) with (n := 0)
    as (s' & Hvote & _ & Htally & Hprop & _).
  - reflexivity.
  - vm_compute. reflexivity.
  - vm_compute. reflexivity.
  - vm_compute. reflexivity.
  - vm_compute. discriminate.
  - exists s'. split; [exact Hvote|]. split; [exact Htally | exact Hprop].
Defined.

Lemma leader_is_max_tally_witness :
  let s := run Runs.alternating create in
  winning_proposal_votes s = max_tally "v-" (boxes s) /\
  winning_update_votes s = max_tally "uv-" (boxes s) /\
  (max_tally "v-" (boxes s) <> 0 ->
   boxes s !! votes (winning_proposal s) ≫= Uint64.Btoi
   = Some (max_tally "v-" (boxes s))) /\
  (max_tally "uv-" (boxes s) <> 0 ->
   boxes s !! update_votes (winning_update s) ≫= Uint64.Btoi
   = Some (max_tally "uv-" (boxes s))) /\
  max_tally "v-" ∅ = 0 /\ max_tally "uv-" ∅ = 0.
Proof.
  cbv zeta. apply leader_is_max_tally.
  apply reachable_run, reachable_create.
Defined.

Lemma update_frame_witness :
  let s := run Runs.raw_proposal create in
  update (Ledger.env Ledger.alice) 1001 s = Some s /\
  (exists stored created,
     InnerTxn_execute (Ledger.env Ledger.alice)
       (AssetReconfigure (minted_asa s) stored
          (current_application_address (Ledger.env Ledger.alice)) 0)
     = Some created).
Proof.
  cbv zeta.
  assert (H : update (Ledger.env Ledger.alice) 1001
                (run Runs.raw_proposal create)
              = Some (run Runs.raw_proposal create))
    by (vm_compute; reflexivity).
  split; [exact H|].
  exact (proj1 (proj2 (update_frame _ _ _ _ H))).
Defined.

(** ** Further properties of the methods *)

Lemma append_String (c : ascii) (a x : string) :
  String c a +:+ x = String c (a +:+ x).
Proof. reflexivity. Qed.

Lemma append_empty (x : string) : "" +:+ x = x.
Proof. reflexivity. Qed.

Lemma append_cancel (a a' x y : string) :
  String.length x = String.length y ->
  a +:+ x = a' +:+ y -> a = a' /\ x = y.
Proof.
  intros Hlen. revert a'. induction a as [|c a IH]; intros [|c' a'] Heq;
    rewrite ?append_String, ?append_empty in Heq.
  - now split.
  - exfalso. apply (f_equal String.length) in Heq.
    cbn [String.length] in Heq. rewrite string_length_app in Heq. lia.
  - exfalso. apply (f_equal String.length) in Heq.
    cbn [String.length] in Heq. rewrite string_length_app in Heq. lia.
  - injection Heq as -> Heq. destruct (IH a' Heq) as [-> ->]. now split.
Qed.

(** X1: the box key of a (submitter, sequence id) pair determines the pair:
    two different pairs never share a proposal, update or tally box. *)
Theorem Tuple2_encode_inj (a a' : string) (n n' : Z) :
  0 <= n <= Uint64.MAX -> 0 <= n' <= Uint64.MAX ->
  Tuple2_encode a n = Tuple2_encode a' n' -> a = a' /\ n = n'.
Proof.
  intros Hn Hn' Heq. unfold Tuple2_encode in Heq.
  apply append_cancel in Heq as [-> Hitob];
    [|now rewrite !Itob_length].
  split; [reflexivity | now apply Itob_inj].
Qed.

Lemma proposals_inj (k k' : string) : proposals k = proposals k' -> k = k'.
Proof. unfold proposals. cbv [String.append]. congruence. Qed.

Lemma update_proposals_inj (k k' : string) :
  update_proposals k = update_proposals k' -> k = k'.
Proof. unfold update_proposals. cbv [String.append]. congruence. Qed.

Lemma votes_inj (k k' : string) : votes k = votes k' -> k = k'.
Proof. unfold votes. cbv [String.append]. congruence. Qed.

(** A successful call never rewrites a box of [proposals] or of
    [update_proposals]. *)
Lemma call_keeps_entry (env : Env) (c : Call) (s s' : DAOState)
    (box v : string) :
  call env c s = Some s' ->
  (exists k, box = proposals k \/ box = update_proposals k) ->
  boxes s !! box = Some v -> boxes s' !! box = Some v.
Proof.
  intros Hcall [k Hbox] Hv. destruct c; cbn in Hcall.
  - apply add_proposal_Some in Hcall as (_ & _ & Hfresh & _ & _ & ->). cbn.
    rewrite lookup_insert_ne; [exact Hv | congruence].
  - apply vote_Some in Hcall as (_ & t & Ht & ->).
    apply cast_ballot_Some in Ht as (_ & n & _ & _ & ->). cbn.
    rewrite !lookup_insert_ne; [exact Hv | |]; destruct Hbox as [-> | ->];
      names_differ.
  - now apply mint_Some in Hcall as (_ & ? & ? & ? & _ & _ & _ & ->).
  - now apply update_Some in Hcall as (_ & ? & ? & _ & _ & ->).
  - apply add_update_Some in Hcall as (_ & _ & Hfresh & _ & _ & ->). cbn.
    rewrite lookup_insert_ne; [exact Hv | congruence].
  - apply vote_on_update_Some in Hcall as (_ & t & Ht & ->).
    apply cast_ballot_Some in Ht as (_ & n & _ & _ & ->). cbn.
    rewrite !lookup_insert_ne; [exact Hv | |]; destruct Hbox as [-> | ->];
      names_differ.
Qed.

Lemma run_keeps_entry (trace : list (Env * Call)) (s : DAOState)
    (box v : string) :
  (exists k, box = proposals k \/ box = update_proposals k) ->
  boxes s !! box = Some v -> boxes (run trace s) !! box = Some v.
Proof.
  intros Hbox. revert s.
  induction trace as [|[env c] rest IH]; intros s Hv; cbn; [exact Hv|].
  apply IH. unfold exec. destruct (call env c s) eqn:Hcall; [|exact Hv].
  now apply call_keeps_entry with (1 := Hcall).
Qed.

(** X2: registered entries are write-once: after a successful [add_proposal]
    the stored proposal stays exactly what was submitted through every
    later call, and the same sender cannot register the same sequence id
    again, whatever the content or the payment. *)
Theorem proposal_write_once (env : Env) (proposal : string)
    (proposal_id : Z) (mbr_payment : PaymentTransaction) (s s1 : DAOState)
    (trace : list (Env * Call)) :
  add_proposal env proposal proposal_id mbr_payment s = Some s1 ->
  let box := proposals (Tuple2_encode (Txn_sender env) proposal_id) in
  boxes (run trace s1) !! box = Some proposal /\
  forall env' proposal' mbr_payment',
    Txn_sender env' = Txn_sender env ->
    add_proposal env' proposal' proposal_id mbr_payment' (run trace s1)
    = None.
Proof.
  intros Hadd box.
  assert (Hkept : boxes (run trace s1) !! box = Some proposal).
  { apply run_keeps_entry; [exists (Tuple2_encode (Txn_sender env)
                                      proposal_id); now left|].
    apply add_proposal_Some in Hadd as (_ & _ & _ & _ & _ & ->). cbn.
    apply lookup_insert_eq. }
  split; [exact Hkept|]. intros env' proposal' mbr_payment' Hsender.
  destruct (add_proposal env' _ _ _ _) as [s2|] eqn:Hagain; [|reflexivity].
  apply add_proposal_Some in Hagain as (_ & _ & Hfresh & _).
  rewrite Hsender in Hfresh. unfold box in Hkept. congruence.
Qed.

(** X3: the same for update proposals written by [add_update]. *)
Theorem update_proposal_write_once (env : Env) (reserve : string)
    (proposal_id : Z) (mbr_payment : PaymentTransaction) (s s1 : DAOState)
    (trace : list (Env * Call)) :
  add_update env reserve proposal_id mbr_payment s = Some s1 ->
  let box := update_proposals (Tuple2_encode (Txn_sender env) proposal_id) in
  boxes (run trace s1) !! box = Some reserve /\
  forall env' reserve' mbr_payment',
    Txn_sender env' = Txn_sender env ->
    add_update env' reserve' proposal_id mbr_payment' (run trace s1) = None.
Proof.
  intros Hadd box.
  assert (Hkept : boxes (run trace s1) !! box = Some reserve).
  { apply run_keeps_entry; [exists (Tuple2_encode (Txn_sender env)
                                      proposal_id); now right|].
    apply add_update_Some in Hadd as (_ & _ & _ & _ & _ & ->). cbn.
    apply lookup_insert_eq. }
  split; [exact Hkept|]. intros env' reserve' mbr_payment' Hsender.
  destruct (add_update env' _ _ _ _) as [s2|] eqn:Hagain; [|reflexivity].
  apply add_update_Some in Hagain as (_ & _ & Hfresh & _).
  rewrite Hsender in Hfresh. unfold box in Hkept. congruence.
Qed.

(** X4: funding is a threshold and leaves no trace: a payment that is not
    addressed to the application is refused whatever its amount, and once
    a submission is accepted, the same submission with any larger payment
    to the application is accepted with the very same resulting state. *)
Theorem payment_is_a_threshold (env : Env) (entry : string)
    (proposal_id : Z) (mbr_payment : PaymentTransaction) (s : DAOState) :
  (receiver mbr_payment <> current_application_address env ->
   add_proposal env entry proposal_id mbr_payment s = None /\
   add_update env entry proposal_id mbr_payment s = None) /\
  (forall s' more,
     receiver more = current_application_address env ->
     amount mbr_payment <= amount more ->
     (add_proposal env entry proposal_id mbr_payment s = Some s' ->
      add_proposal env entry proposal_id more s = Some s') /\
     (add_update env entry proposal_id mbr_payment s = Some s' ->
      add_update env entry proposal_id more s = Some s')).
Proof.
  split.
  - intros Hrecv. split.
    + destruct (add_proposal _ _ _ _ _) eqn:Hcall; [|reflexivity].
      apply add_proposal_Some in Hcall as (_ & Hr & _). contradiction.
    + destruct (add_update _ _ _ _ _) eqn:Hcall; [|reflexivity].
      apply add_update_Some in Hcall as (_ & Hr & _). contradiction.
  - intros s' more Hrecv Hmore. split; intros Hcall.
    + apply add_proposal_Some in Hcall as (Hm & _ & Hf & Hle & Hpay & ->).
      apply add_proposal_Some. repeat split; try assumption. lia.
    + apply add_update_Some in Hcall as (Hm & _ & Hf & Hle & Hpay & ->).
      apply add_update_Some. repeat split; try assumption. lia.
Qed.

(** The empty key is never registered, and the leader is the empty
    default as long as the leading count is zero. *)
Lemma no_vote_no_leader (s : DAOState) :
  reachable s ->
  boxes s !! proposals "" = None /\
  (winning_proposal_votes s = 0 -> winning_proposal s = "").
Proof.
  induction 1 as [|env c s s' _ [IHbox IHlead] Hcall].
  - split; [apply lookup_empty | reflexivity].
  - destruct c; cbn in Hcall.
    + apply add_proposal_Some in Hcall as (_ & _ & _ & _ & _ & ->). cbn.
      split; [|exact IHlead]. rewrite lookup_insert_ne; [exact IHbox|].
      intros Heq. apply proposals_inj in Heq.
      apply (f_equal String.length) in Heq. unfold Tuple2_encode in Heq.
      rewrite string_length_app, Itob_length in Heq. cbn in Heq. lia.
    + apply vote_Some in Hcall as (_ & t & Ht & ->).
      apply cast_ballot_Some in Ht as (_ & n & Hn & _ & ->). cbn. split.
      * rewrite !lookup_insert_ne by names_differ. exact IHbox.
      * pose proof (current_tally_nonneg _ _ _ Hn).
        destruct (winning_proposal_votes s <? n + 1) eqn:Hlt; [lia|].
        apply Z.ltb_ge in Hlt. lia.
    + apply mint_Some in Hcall as (_ & ? & ? & ? & _ & _ & _ & ->).
      now split.
    + apply update_Some in Hcall as (_ & ? & ? & _ & _ & ->). now split.
    + apply add_update_Some in Hcall as (_ & _ & _ & _ & _ & ->). cbn.
      split; [|exact IHlead]. rewrite lookup_insert_ne by names_differ.
      exact IHbox.
    + apply vote_on_update_Some in Hcall as (_ & t & Ht & ->).
      apply cast_ballot_Some in Ht as (_ & n & _ & _ & ->). cbn.
      split; [|exact IHlead]. rewrite !lookup_insert_ne by names_differ.
      exact IHbox.
Qed.

(** X5: [mint] needs a vote: in a state reached from [create], [mint] is
    rejected on every ledger while no vote has been counted, so a
    successful [mint] has a leading count of at least one and finds the
    leader registered in [proposals]. *)
Theorem mint_needs_a_vote (s : DAOState) :
  reachable s ->
  (winning_proposal_votes s = 0 -> forall env, mint env s = None) /\
  (forall env s', mint env s = Some s' ->
     1 <= winning_proposal_votes s /\
     is_Some (boxes s !! proposals (winning_proposal s))).
Proof.
  intros Hreach. destruct (no_vote_no_leader s Hreach) as [Hbox Hlead].
  destruct (reachable_consistent s Hreach) as [[[Hpos _] _] _].
  cbn in Hpos.
  assert (Hmint : forall env s', mint env s = Some s' ->
            winning_proposal_votes s <> 0 /\
            is_Some (boxes s !! proposals (winning_proposal s))).
  { intros env s' Hm.
    apply mint_Some in Hm as (_ & stored & _ & _ & Hstored & _).
    split; [|eauto]. intros Hz. rewrite (Hlead Hz) in Hstored. congruence. }
  split.
  - intros Hz env. destruct (mint env s) eqn:Hm; [|reflexivity].
    now destruct (Hmint _ _ Hm).
  - intros env s' Hm. destruct (Hmint _ _ Hm). split; [lia | assumption].
Qed.

(** After the mint only [add_update] changes anything: a call in the
    post-mint phase keeps the five global values and every box that is
    not an [update_proposals] entry. *)
Lemma call_post_mint (env : Env) (c : Call) (s s' : DAOState) :
  minted_asa s <> 0 -> call env c s = Some s' ->
  same_globals s s' /\
  forall box, (forall k, box <> update_proposals k) ->
              boxes s' !! box = boxes s !! box.
Proof.
  intros Hm Hcall. destruct c; cbn in Hcall.
  - apply add_proposal_Some in Hcall as (Hz & _). contradiction.
  - apply vote_Some in Hcall as (Hz & _). contradiction.
  - apply mint_Some in Hcall as (Hz & _). contradiction.
  - apply update_Some in Hcall as (_ & ? & ? & _ & _ & ->).
    now repeat split.
  - apply add_update_Some in Hcall as (_ & _ & _ & _ & _ & ->).
    split; [now repeat split|]. intros box Hbox. cbn.
    apply lookup_insert_ne. apply not_eq_sym, Hbox.
  - apply vote_on_update_Some in Hcall as (Hz & _). contradiction.
Qed.

Lemma run_post_mint_frame (trace : list (Env * Call)) (s : DAOState) :
  minted_asa s <> 0 ->
  same_globals s (run trace s) /\
  forall box, (forall k, box <> update_proposals k) ->
              boxes (run trace s) !! box = boxes s !! box.
Proof.
  revert s. induction trace as [|[env c] rest IH]; intros s Hm; cbn.
  - now repeat split.
  - unfold exec. destruct (call env c s) as [s1|] eqn:Hcall; [|now apply IH].
    destruct (call_post_mint _ _ _ _ Hm Hcall)
      as [(Hv & Hw & Huv & Hu & Hmint) Hboxes].
    destruct (IH s1) as [(Hv' & Hw' & Huv' & Hu' & Hmint') Hboxes'];
      [congruence|].
    split; [repeat split; congruence|].
    intros box Hbox. rewrite Hboxes' by exact Hbox. now apply Hboxes.
Qed.

(** X6: nothing done after the mint changes what [update] applies: once
    [minted_asa] is set, the winner of the update vote, its count and the
    box [update] reads are fixed, [vote_on_update] is always rejected, and
    [update] gives the same result after any further calls, in particular
    after any [add_update]. *)
Theorem update_outcome_is_fixed_at_mint (s : DAOState)
    (trace : list (Env * Call)) :
  minted_asa s <> 0 ->
  winning_update (run trace s) = winning_update s /\
  winning_update_votes (run trace s) = winning_update_votes s /\
  (forall env proposer proposal_id,
     vote_on_update env proposer proposal_id (run trace s) = None) /\
  (forall env asa,
     update env asa (run trace s) =
     (fun _ => run trace s) <$> update env asa s).
Proof.
  intros Hm.
  destruct (run_post_mint_frame trace s Hm)
    as [(Hv & Hw & Huv & Hu & Hmint) Hboxes].
  split; [exact Hu|]. split; [exact Huv|]. split.
  - intros env proposer proposal_id. rewrite vote_on_update_unfold.
    rewrite Hmint. apply Z.eqb_neq in Hm. now rewrite Hm.
  - intros env asa. unfold update, Box.get.
    rewrite Hmint, Hu, Hboxes by (intros k; names_differ).
    destruct (Assert _); cbn; [|reflexivity].
    destruct (boxes s !! _); cbn; [|reflexivity].
    now destruct (InnerTxn_execute env _).
Qed.

(** Update proposals exist only after the mint. *)
Lemma no_update_proposals_pre_mint (s : DAOState) :
  reachable s -> minted_asa s = 0 ->
  forall k, boxes s !! update_proposals k = None.
Proof.
  induction 1 as [|env c s s' _ IH Hcall]; intros Hm k.
  - apply lookup_empty.
  - destruct c; cbn in Hcall.
    + apply add_proposal_Some in Hcall as (Hz & _ & _ & _ & _ & ->). cbn.
      rewrite lookup_insert_ne by names_differ. now apply IH.
    + apply vote_Some in Hcall as (Hz & t & Ht & ->).
      apply cast_ballot_Some in Ht as (_ & n & _ & _ & ->). cbn.
      rewrite !lookup_insert_ne by names_differ. now apply IH.
    + apply mint_Some in Hcall as (Hz & ? & ? & ? & _ & _ & _ & ->).
      now apply IH.
    + apply update_Some in Hcall as (_ & ? & ? & _ & _ & ->). now apply IH.
    + apply add_update_Some in Hcall as (Hnz & _ & _ & _ & _ & ->).
      cbn in Hm. contradiction.
    + apply vote_on_update_Some in Hcall as (Hz & t & Ht & ->).
      apply cast_ballot_Some in Ht as (_ & n & _ & _ & ->). cbn.
      rewrite !lookup_insert_ne by names_differ. now apply IH.
Qed.

(** X7: every update vote is a vote for an unregistered update: whenever
    [vote_on_update] succeeds in a state reached from [create], the
    [update_proposals] mapping has no entry at all, before and after the
    call. *)
Theorem update_votes_precede_update_proposals (env : Env)
    (proposer : string) (proposal_id : Z) (s s' : DAOState) :
  reachable s ->
  vote_on_update env proposer proposal_id s = Some s' ->
  forall k, boxes s !! update_proposals k = None /\
            boxes s' !! update_proposals k = None.
Proof.
  intros Hreach Hvote k.
  assert (Hreach' : reachable s')
    by (apply reachable_call with (env := env)
          (c := VoteOnUpdate proposer proposal_id) (s := s); assumption).
  pose proof Hvote as Hv.
  apply vote_on_update_Some in Hv as (Hz & t & _ & ->).
  split; now apply no_update_proposals_pre_mint.
Qed.

(** *** Votes add up *)

Lemma box_total_fresh (f : string -> string -> Z) (k v : string)
    (b : gmap string string) :
  b !! k = None -> box_total f (<[k := v]> b) = f k v + box_total f b.
Proof.
  intros Hk. unfold box_total.
  apply (map_fold_insert_L (fun k v acc => f k v + acc)); [|exact Hk].
  intros. lia.
Qed.

Lemma box_total_lookup (f : string -> string -> Z) (k v : string)
    (b : gmap string string) :
  b !! k = Some v -> box_total f b = f k v + box_total f (delete k b).
Proof.
  intros Hk. rewrite <- (insert_delete_id b k v Hk) at 1.
  apply box_total_fresh, lookup_delete_eq.
Qed.

Lemma box_total_insert (f : string -> string -> Z) (k v : string)
    (b : gmap string string) :
  box_total f (<[k := v]> b) =
  box_total f b
  - match b !! k with Some old => f k old | None => 0 end
  + f k v.
Proof.
  destruct (b !! k) as [old|] eqn:Hk.
  - rewrite (box_total_lookup f k old b Hk).
    rewrite <- (insert_delete_eq b k v).
    rewrite box_total_fresh by apply lookup_delete_eq. lia.
  - rewrite box_total_fresh by exact Hk. lia.
Qed.

Lemma box_total_insert_foreign (f : string -> string -> Z) (k v : string)
    (b : gmap string string) :
  (forall x, f k x = 0) -> box_total f (<[k := v]> b) = box_total f b.
Proof.
  intros Hf. rewrite box_total_insert, Hf.
  destruct (b !! k); rewrite ?Hf; lia.
Qed.

Lemma box_total_nonneg (f : string -> string -> Z) (b : gmap string string) :
  (forall k v, 0 <= f k v) -> 0 <= box_total f b.
Proof.
  intros Hf. induction b as [|k v b Hk IH] using map_ind.
  - unfold box_total. now rewrite map_fold_empty.
  - rewrite box_total_fresh by exact Hk. specialize (Hf k v). lia.
Qed.

Lemma box_total_member (f : string -> string -> Z) (k v : string)
    (b : gmap string string) :
  (forall k v, 0 <= f k v) -> b !! k = Some v -> f k v <= box_total f b.
Proof.
  intros Hf Hk. rewrite (box_total_lookup f k v b Hk).
  pose proof (box_total_nonneg f (delete k b) Hf). lia.
Qed.

Lemma strip_prefix_app (pfx k : string) :
  strip_prefix pfx (pfx +:+ k) = Some k.
Proof. now apply strip_prefix_Some. Qed.

Lemma strip_prefix_other (pfx box : string) :
  (forall k, box <> pfx +:+ k) -> strip_prefix pfx box = None.
Proof.
  intros Hne. destruct (strip_prefix pfx box) as [k|] eqn:Hk; [|reflexivity].
  apply strip_prefix_Some in Hk. now destruct (Hne k).
Qed.

Ltac foreign_box :=
  intros; unfold tally_weight, entry_weight;
  rewrite strip_prefix_other; [reflexivity | intros; names_differ].

Lemma tally_weight_nonneg (pfx k v : string) : 0 <= tally_weight pfx k v.
Proof.
  unfold tally_weight. destruct (strip_prefix pfx k); [|lia].
  destruct (Uint64.Btoi v) eqn:Hv; cbn; [|lia]. now apply Btoi_nonneg in Hv.
Qed.

Lemma current_tally_weight (pfx key : string) (b : gmap string string)
    (n : Z) :
  current_tally (pfx +:+ key) b = Some n ->
  match b !! (pfx +:+ key) with
  | Some old => tally_weight pfx (pfx +:+ key) old
  | None => 0
  end = n.
Proof.
  unfold current_tally, tally_weight. rewrite strip_prefix_app.
  destruct (b !! (pfx +:+ key)).
  - now intros ->.
  - now intros [= <-].
Qed.

(** One ballot adds one recorded vote and one voter flag. *)
Lemma cast_ballot_counts (tally_pfx voted_pfx voter key : string)
    (t t' : Ballots) :
  (forall a b, tally_pfx +:+ a <> voted_pfx +:+ b) ->
  cast_ballot (String.append tally_pfx) (String.append voted_pfx)
    voter key t = Some t' ->
  votes_recorded tally_pfx (store t')
  = votes_recorded tally_pfx (store t) + 1 /\
  entries voted_pfx (store t') = entries voted_pfx (store t) + 1.
Proof.
  intros Hne Hcast.
  apply cast_ballot_Some in Hcast as (Hfresh & n & Hn & Hmax & ->).
  cbn [store]. unfold votes_recorded, entries. split.
  - rewrite box_total_insert_foreign.
    2:{ intros x. unfold tally_weight. rewrite strip_prefix_other;
          [reflexivity | intros k Hk; now apply (Hne k voter)]. }
    rewrite box_total_insert.
    pose proof (current_tally_nonneg _ _ _ Hn) as Hn0.
    rewrite (current_tally_weight _ _ _ _ Hn).
    unfold tally_weight at 2. rewrite strip_prefix_app.
    rewrite Btoi_Itob by lia. cbn [default id]. lia.
  - rewrite box_total_insert. rewrite lookup_insert_ne by apply Hne.
    rewrite Hfresh. unfold entry_weight at 2. rewrite strip_prefix_app.
    rewrite box_total_insert_foreign; [lia|].
    intros x. unfold entry_weight. rewrite strip_prefix_other;
      [reflexivity | intros k Hk; now apply (Hne key k)].
Qed.

Lemma call_counts (env : Env) (c : Call) (s s' : DAOState) :
  call env c s = Some s' ->
  votes_recorded "v-" (boxes s) = entries "h-" (boxes s) /\
  votes_recorded "uv-" (boxes s) = entries "uh-" (boxes s) ->
  votes_recorded "v-" (boxes s') = entries "h-" (boxes s') /\
  votes_recorded "uv-" (boxes s') = entries "uh-" (boxes s').
Proof.
  intros Hcall [Hp Hu]. unfold votes_recorded, entries in *.
  destruct c; cbn in Hcall.
  - apply add_proposal_Some in Hcall as (_ & _ & _ & _ & _ & ->). cbn.
    rewrite !box_total_insert_foreign by foreign_box. now split.
  - apply vote_Some in Hcall as (_ & t & Ht & ->).
    destruct (cast_ballot_counts "v-" "h-" _ _ _ _
                ltac:(intros; names_differ) Ht) as [Hv Hh].
    unfold votes_recorded, entries in Hv, Hh. cbn in Hv, Hh.
    apply cast_ballot_Some in Ht as (_ & n & _ & _ & ->).
    cbn in *. split; [lia|].
    rewrite !box_total_insert_foreign by foreign_box. exact Hu.
  - apply mint_Some in Hcall as (_ & ? & ? & ? & _ & _ & _ & ->).
    now split.
  - apply update_Some in Hcall as (_ & ? & ? & _ & _ & ->). now split.
  - apply add_update_Some in Hcall as (_ & _ & _ & _ & _ & ->). cbn.
    rewrite !box_total_insert_foreign by foreign_box. now split.
  - apply vote_on_update_Some in Hcall as (_ & t & Ht & ->).
    destruct (cast_ballot_counts "uv-" "uh-" _ _ _ _
                ltac:(intros; names_differ) Ht) as [Hv Hh].
    unfold votes_recorded, entries in Hv, Hh. cbn in Hv, Hh.
    apply cast_ballot_Some in Ht as (_ & n & _ & _ & ->).
    cbn in *. split; [|lia].
    rewrite !box_total_insert_foreign by foreign_box. exact Hp.
Qed.

(** X8: votes add up: in every state reached from [create], the tallies of
    the [votes] mapping sum to the number of [has_voted] flags, and those
    of [update_votes] to the number of [update_has_voted] flags; so no
    leading count exceeds the number of accounts that voted. *)
Theorem votes_add_up (s : DAOState) :
  reachable s ->
  votes_recorded "v-" (boxes s) = entries "h-" (boxes s) /\
  votes_recorded "uv-" (boxes s) = entries "uh-" (boxes s) /\
  winning_proposal_votes s <= entries "h-" (boxes s) /\
  winning_update_votes s <= entries "uh-" (boxes s).
Proof.
  intros Hreach.
  assert (Hsum : votes_recorded "v-" (boxes s) = entries "h-" (boxes s) /\
                 votes_recorded "uv-" (boxes s) = entries "uh-" (boxes s)).
  { induction Hreach as [|env c s s' _ IH Hcall].
    - now split.
    - now apply call_counts with (1 := Hcall). }
  destruct Hsum as [Hp Hu]. split; [exact Hp|]. split; [exact Hu|].
  destruct (reachable_consistent s Hreach)
    as [(Hpr & _ & Hpl) (Hur & _ & Hul)]. cbn in Hpr, Hpl, Hur, Hul.
  assert (Hbound : forall pfx lv l,
            0 <= lv <= Uint64.MAX ->
            (lv <> 0 -> boxes s !! (pfx +:+ l) = Some (Uint64.Itob lv)) ->
            lv <= votes_recorded pfx (boxes s)).
  { intros pfx lv l Hrange Hbox. unfold votes_recorded.
    destruct (Z.eq_dec lv 0) as [-> | Hnz].
    - apply box_total_nonneg. intros. apply tally_weight_nonneg.
    - specialize (Hbox Hnz).
      pose proof (box_total_member (tally_weight pfx) _ _ _
                    (tally_weight_nonneg pfx) Hbox) as Hle.
      unfold tally_weight at 1 in Hle.
      rewrite strip_prefix_app, Btoi_Itob in Hle by exact Hrange.
      exact Hle. }
  split.
  - rewrite <- Hp. now apply (Hbound "v-" _ (winning_proposal s)).
  - rewrite <- Hu. now apply (Hbound "uv-" _ (winning_update s)).
Qed.

(** *** The two votes are independent *)






(** *** Tallies move one vote at a time *)

Lemma current_tally_Itob (box : string) (b : gmap string string) (n : Z) :
  0 <= n <= Uint64.MAX ->
  current_tally box (<[box := Uint64.Itob n]> b) = Some n.
Proof.
  intros Hn. unfold current_tally.
  rewrite lookup_insert_eq. now apply Btoi_Itob.
Qed.

Lemma cast_ballot_tally (tally voted : string -> string)
    (voter key k : string) (t t' : Ballots) (n : Z) :
  (forall a b, tally a <> voted b) ->
  (forall a b, tally a = tally b -> a = b) ->
  cast_ballot tally voted voter key t = Some t' ->
  current_tally (tally k) (store t) = Some n ->
  current_tally (tally k) (store t')
  = Some (if bool_decide (key = k) then n + 1 else n).
Proof.
  intros Hne Hinj Hcast Hn.
  apply cast_ballot_Some in Hcast as (_ & m & Hm & Hmax & ->). cbn [store].
  pose proof (current_tally_nonneg _ _ _ Hm) as Hm0.
  assert (Hskip : forall b' : gmap string string,
            current_tally (tally k) (<[voted voter := Bool_true]> b')
            = current_tally (tally k) b').
  { intros b'. unfold current_tally.
    now rewrite lookup_insert_ne by (apply not_eq_sym, Hne). }
  rewrite Hskip. destruct (bool_decide (key = k)) eqn:Hk.
  - apply bool_decide_eq_true in Hk as ->.
    rewrite Hm in Hn. injection Hn as <-. apply current_tally_Itob. lia.
  - apply bool_decide_eq_false in Hk. unfold current_tally in *.
    rewrite lookup_insert_ne; [exact Hn|]. intros Heq. now apply Hinj in Heq.
Qed.

Lemma current_tally_frame (box : string) (b b' : gmap string string) :
  b' !! box = b !! box -> current_tally box b' = current_tally box b.
Proof. unfold current_tally. now intros ->. Qed.

(** X10: a tally moves one vote at a time: a successful call changes the
    tally of a key only if it is a vote for exactly that key, and then it
    adds one; every other call, and every vote for another key, leaves
    the tally as it was (a key without a box counts as zero).  Stated for
    [votes] and for [update_votes]. *)
Theorem tally_moves_by_one (env : Env) (c : Call) (s s' : DAOState)
    (k : string) (n : Z) :
  call env c s = Some s' ->
  (current_tally (votes k) (boxes s) = Some n ->
   current_tally (votes k) (boxes s')
   = Some (if is_vote_for k c then n + 1 else n)) /\
  (current_tally (update_votes k) (boxes s) = Some n ->
   current_tally (update_votes k) (boxes s')
   = Some (if is_update_vote_for k c then n + 1 else n)).
Proof.
  intros Hcall. destruct c; cbn [is_vote_for is_update_vote_for];
    cbn in Hcall.
  - apply add_proposal_Some in Hcall as (_ & _ & _ & _ & _ & ->). cbn.
    split; intros <-; apply current_tally_frame, lookup_insert_ne;
      names_differ.
  - apply vote_Some in Hcall as (_ & t & Ht & ->). split; intros Hn.
    + apply (cast_ballot_tally votes has_voted _ _ k _ _ n
               votes_not_has_voted votes_inj Ht Hn).
    + apply cast_ballot_Some in Ht as (_ & m & _ & _ & ->). cbn.
      rewrite <- Hn. apply current_tally_frame.
      rewrite !lookup_insert_ne by names_differ. reflexivity.
  - apply mint_Some in Hcall as (_ & ? & ? & ? & _ & _ & _ & ->).
    now split.
  - apply update_Some in Hcall as (_ & ? & ? & _ & _ & ->). now split.
  - apply add_update_Some in Hcall as (_ & _ & _ & _ & _ & ->). cbn.
    split; intros <-; apply current_tally_frame, lookup_insert_ne;
      names_differ.
  - apply vote_on_update_Some in Hcall as (_ & t & Ht & ->).
    split; intros Hn.
    + apply cast_ballot_Some in Ht as (_ & m & _ & _ & ->). cbn.
      rewrite <- Hn. apply current_tally_frame.
      rewrite !lookup_insert_ne by names_differ. reflexivity.
    + assert (Hinj : forall a b, update_votes a = update_votes b -> a = b).
      { intros a b. unfold update_votes. cbv [String.append]. congruence. }
      apply (cast_ballot_tally update_votes update_has_voted _ _ k _ _ n
               update_votes_not_update_has_voted Hinj Ht Hn).
Qed.

(** *** The checks of a vote in reachable states *)

Lemma ballots_ok_can_vote (pfx : string) (voted : string -> string)
    (voter key : string) (t : Ballots) :
  ballots_ok pfx t ->
  store t !! voted voter = None ->
  leader_votes t < Uint64.MAX ->
  is_Some (cast_ballot (String.append pfx) voted voter key t).
Proof.
  intros (Hpos & Hall & _) Hfresh Hroom.
  assert (Hn : exists n, current_tally (pfx +:+ key) (store t) = Some n /\
                         n + 1 <= Uint64.MAX).
  { unfold current_tally.
    destruct (store t !! (pfx +:+ key)) as [v|] eqn:Hv.
    - destruct (Hall _ _ Hv) as (m & -> & Hm). exists m.
      rewrite Btoi_Itob by lia. split; [auto|lia].
    - exists 0. split; [reflexivity | lia]. }
  destruct Hn as (n & Hn & Hmax). eexists.
  apply cast_ballot_Some. split; [exact Hfresh|]. exists n. auto.
Qed.

(** X11: none of the contract's own checks stops a fresh voter.  In the
    pre-mint phase of any state reached from [create], for a sender
    without a voter flag and a leading count below the largest uint64,
    every step of [vote] goes through for any key whatsoever, registered
    or not: the gate, the flag assertion, the decoding of the stored
    tally and the increment.  The same holds for [vote_on_update] and its
    own flag.  Whether the ledger then commits the call (box references,
    funding of the new boxes) is outside this statement. *)
Theorem fresh_voter_passes_every_check (env : Env) (proposer : string)
    (proposal_id : Z) (s : DAOState) :
  reachable s -> minted_asa s = 0 ->
  (boxes s !! has_voted (Txn_sender env) = None ->
   winning_proposal_votes s < Uint64.MAX ->
   is_Some (vote env proposer proposal_id s)) /\
  (boxes s !! update_has_voted (Txn_sender env) = None ->
   winning_update_votes s < Uint64.MAX ->
   is_Some (vote_on_update env proposer proposal_id s)).
Proof.
  intros Hreach Hm. destruct (reachable_consistent s Hreach) as [Hp Hu].
  apply Z.eqb_eq in Hm. split; intros Hfresh Hroom.
  - rewrite vote_unfold, Hm.
    destruct (ballots_ok_can_vote "v-" has_voted (Txn_sender env)
                (Tuple2_encode proposer proposal_id) _ Hp Hfresh Hroom)
      as [t Ht].
    change (String.append "v-") with votes in Ht. rewrite Ht. cbn. eauto.
  - rewrite vote_on_update_unfold, Hm.
    destruct (ballots_ok_can_vote "uv-" update_has_voted (Txn_sender env)
                (Tuple2_encode proposer proposal_id) _ Hu Hfresh Hroom)
      as [t Ht].
    change (String.append "uv-") with update_votes in Ht. rewrite Ht. cbn.
    eauto.
Qed.

(** *** Shape of the box store *)

Lemma known_box_mono (lp lu lp' lu' : Z) (box v : string) :
  lp <= lp' -> lu <= lu' ->
  known_box lp lu box v -> known_box lp' lu' box v.
Proof.
  intros Hp Hu
    [H | [(k & n & -> & -> & Hn) | [H | [H | [(k & n & -> & -> & Hn) | H]]]]];
    unfold known_box; eauto 10.
  - right. left. exists k, n. repeat split; lia.
  - do 4 right. left. exists k, n. repeat split; lia.
Qed.

Lemma cast_ballot_leader_votes (tally voted : string -> string)
    (voter key : string) (t t' : Ballots) :
  cast_ballot tally voted voter key t = Some t' ->
  exists n, 0 <= n /\ n + 1 <= leader_votes t' /\
            leader_votes t <= leader_votes t' /\
            store t' = <[voted voter := Bool_true]>
                         (<[tally key := Uint64.Itob (n + 1)]> (store t)).
Proof.
  intros Hcast.
  apply cast_ballot_Some in Hcast as (_ & n & Hn & _ & ->). cbn.
  exists n. pose proof (current_tally_nonneg _ _ _ Hn).
  destruct (leader_votes t <? n + 1) eqn:Hlt;
    [apply Z.ltb_lt in Hlt | apply Z.ltb_ge in Hlt]; repeat split; lia.
Qed.

(** X12: the contract keeps its box store tidy: in every state reached from
    [create], each box belongs to one of the six mappings; a tally box
    holds the 8-byte encoding of a count between one and the leading
    count of its vote, and a voter flag holds the encoding of [True]. *)
Theorem boxes_well_formed (s : DAOState) :
  reachable s ->
  forall box v, boxes s !! box = Some v ->
    known_box (winning_proposal_votes s) (winning_update_votes s) box v.
Proof.
  induction 1 as [|env c s s' _ IH Hcall]; intros box v Hv.
  - cbn in Hv. now rewrite lookup_empty in Hv.
  - destruct c; cbn in Hcall.
    + apply add_proposal_Some in Hcall as (_ & _ & _ & _ & _ & ->).
      cbn in *. apply lookup_insert_Some in Hv as [[<- _] | [_ Hv]];
        [left; eauto | now apply IH].
    + apply vote_Some in Hcall as (_ & t & Ht & ->).
      destruct (cast_ballot_leader_votes _ _ _ _ _ _ Ht)
        as (n & Hn0 & Hn & Hmono & Hstore).
      cbn in *. rewrite Hstore in Hv.
      apply lookup_insert_Some in Hv as [[<- <-] | [_ Hv]];
        [unfold known_box; eauto 10|].
      apply lookup_insert_Some in Hv as [[<- <-] | [_ Hv]].
      * right. left. eexists _, (n + 1). repeat split; lia.
      * apply (known_box_mono (winning_proposal_votes s)
                 (winning_update_votes s)); [lia | lia | now apply IH].
    + apply mint_Some in Hcall as (_ & ? & ? & ? & _ & _ & _ & ->).
      now apply IH.
    + apply update_Some in Hcall as (_ & ? & ? & _ & _ & ->). now apply IH.
    + apply add_update_Some in Hcall as (_ & _ & _ & _ & _ & ->).
      cbn in *. apply lookup_insert_Some in Hv as [[<- _] | [_ Hv]];
        [unfold known_box; eauto 10 | now apply IH].
    + apply vote_on_update_Some in Hcall as (_ & t & Ht & ->).
      destruct (cast_ballot_leader_votes _ _ _ _ _ _ Ht)
        as (n & Hn0 & Hn & Hmono & Hstore).
      cbn in *. rewrite Hstore in Hv.
      apply lookup_insert_Some in Hv as [[<- <-] | [_ Hv]];
        [unfold known_box; eauto 10|].
      apply lookup_insert_Some in Hv as [[<- <-] | [_ Hv]].
      * do 4 right. left. eexists _, (n + 1). repeat split; lia.
      * apply (known_box_mono (winning_proposal_votes s)
                 (winning_update_votes s)); [lia | lia | now apply IH].
Qed.

(** X13: after the mint the contract is frozen except for update proposals:
    whatever calls follow, the five global values stay as they are and so
    does every box that is not an [update_proposals] entry; in
    particular no proposal, tally or voter flag can be added. *)
Theorem post_mint_only_update_proposals_change (s : DAOState)
    (trace : list (Env * Call)) :
  minted_asa s <> 0 ->
  same_globals s (run trace s) /\
  forall box, (forall k, box <> update_proposals k) ->
              boxes (run trace s) !! box = boxes s !! box.
Proof. apply run_post_mint_frame. Qed.

(** *** Instances on the sample ledger *)

Lemma Tuple2_encode_inj_witness :
  Ledger.xavier = Ledger.xavier /\ 7 = 7.
Proof.
  apply (Tuple2_encode_inj Ledger.xavier Ledger.xavier 7 7).
  - unfold Uint64.MAX. lia.
  - unfold Uint64.MAX. lia.
  - reflexivity.
Defined.

Lemma proposal_write_once_witness :
  let s1 := exec (Ledger.env Ledger.xavier)
              (AddProposal Ledger.artwork 1 (Ledger.pay 41700)) create in
  let later := run [ (Ledger.env Ledger.alice, Vote Ledger.xavier 1);
                     (Ledger.env Ledger.bob, Mint) ] s1 in
  boxes later !! proposals (Tuple2_encode Ledger.xavier 1)
  = Some Ledger.artwork /\
  add_proposal (Ledger.env Ledger.xavier) Ledger.treasury 1
    (Ledger.pay 90000) later = None.
Proof.
  cbv zeta.
  destruct (proposal_write_once (Ledger.env Ledger.xavier) Ledger.artwork 1
              (Ledger.pay 41700) create
              (exec (Ledger.env Ledger.xavier)
                 (AddProposal Ledger.artwork 1 (Ledger.pay 41700)) create)
              [ (Ledger.env Ledger.alice, Vote Ledger.xavier 1);
                (Ledger.env Ledger.bob, Mint) ]) as [Hkept Hdup].
  - vm_compute. reflexivity.
  - split; [exact Hkept|]. now apply Hdup.
Defined.

Lemma update_proposal_write_once_witness :
  let s := run Runs.minted create in
  let s1 := exec (Ledger.env Ledger.yara)
              (AddUpdate Ledger.treasury 1 (Ledger.pay 32500)) s in
  let later := run [ (Ledger.env Ledger.alice, Update 1001) ] s1 in
  boxes later !! update_proposals (Tuple2_encode Ledger.yara 1)
  = Some Ledger.treasury /\
  add_update (Ledger.env Ledger.yara) Ledger.alice 1
    (Ledger.pay 90000) later = None.
Proof.
  cbv zeta.
  destruct (update_proposal_write_once (Ledger.env Ledger.yara)
              Ledger.treasury 1 (Ledger.pay 32500) (run Runs.minted create)
              (exec (Ledger.env Ledger.yara)
                 (AddUpdate Ledger.treasury 1 (Ledger.pay 32500))
                 (run Runs.minted create))
              [ (Ledger.env Ledger.alice, Update 1001) ]) as [Hkept Hdup].
  - vm_compute. reflexivity.
  - split; [exact Hkept|]. now apply Hdup.
Defined.

Lemma payment_is_a_threshold_witness :
  (add_proposal (Ledger.env Ledger.xavier) Ledger.artwork 1
     {| receiver := Ledger.alice; amount := 90000 |} create = None /\
   add_update (Ledger.env Ledger.xavier) Ledger.artwork 1
     {| receiver := Ledger.alice; amount := 90000 |} create = None) /\
  add_proposal (Ledger.env Ledger.xavier) Ledger.artwork 1
    (Ledger.pay 90000) create
  = Some (exec (Ledger.env Ledger.xavier)
            (AddProposal Ledger.artwork 1 (Ledger.pay 41700)) create).
Proof.
  split.
  - apply (proj1 (payment_is_a_threshold (Ledger.env Ledger.xavier)
                    Ledger.artwork 1
                    {| receiver := Ledger.alice; amount := 90000 |} create)).
    vm_compute. discriminate.
  - apply (proj2 (payment_is_a_threshold (Ledger.env Ledger.xavier)
                    Ledger.artwork 1 (Ledger.pay 41700) create)
             _ (Ledger.pay 90000)).
    + reflexivity.
    + vm_compute. discriminate.
    + vm_compute. reflexivity.
Defined.

Lemma mint_needs_a_vote_witness :
  (forall env, mint env create = None) /\
  1 <= winning_proposal_votes (run Runs.voted create).
Proof.
  split.
  - apply (proj1 (mint_needs_a_vote create reachable_create)). reflexivity.
  - apply (proj2 (mint_needs_a_vote (run Runs.voted create)
                    (reachable_run _ _ reachable_create))
             (Ledger.env Ledger.bob)
             (exec (Ledger.env Ledger.bob) Mint (run Runs.voted create))).
    vm_compute. reflexivity.
Defined.

Lemma update_outcome_is_fixed_at_mint_witness :
  let s := run Runs.minted create in
  let later := [ (Ledger.env Ledger.yara,
                  AddUpdate Ledger.treasury 1 (Ledger.pay 32500)) ] in
  winning_update (run later s) = winning_update s /\
  winning_update_votes (run later s) = winning_update_votes s /\
  (forall env proposer proposal_id,
     vote_on_update env proposer proposal_id (run later s) = None) /\
  (forall env asa,
     update env asa (run later s) =
     (fun _ => run later s) <$> update env asa s).
Proof.
  cbv zeta. apply update_outcome_is_fixed_at_mint. vm_compute. discriminate.
Defined.

Lemma update_votes_precede_update_proposals_witness :
  boxes create !! update_proposals (Tuple2_encode Ledger.yara 1) = None /\
  boxes (exec (Ledger.env Ledger.alice) (VoteOnUpdate Ledger.yara 1) create)
    !! update_proposals (Tuple2_encode Ledger.yara 1) = None.
Proof.
  apply (update_votes_precede_update_proposals (Ledger.env Ledger.alice)
           Ledger.yara 1 create).
  - apply reachable_create.
  - vm_compute. reflexivity.
Defined.

Lemma votes_add_up_witness :
  let s := run Runs.alternating create in
  votes_recorded "v-" (boxes s) = entries "h-" (boxes s) /\
  votes_recorded "uv-" (boxes s) = entries "uh-" (boxes s) /\
  winning_proposal_votes s <= entries "h-" (boxes s) /\
  winning_update_votes s <= entries "uh-" (boxes s).
Proof.
  cbv zeta. apply votes_add_up. apply reachable_run, reachable_create.
Defined.

Lemma tally_moves_by_one_witness :
  let s := run Runs.voted create in
  let k := Tuple2_encode Ledger.xavier 1 in
  let s' := exec (Ledger.env Ledger.yara) (Vote Ledger.xavier 1) s in
  current_tally (votes k) (boxes s')
  = Some (if is_vote_for k (Vote Ledger.xavier 1) then 2 + 1 else 2).
Proof.
  cbv zeta.
  apply (proj1 (tally_moves_by_one (Ledger.env Ledger.yara)
                  (Vote Ledger.xavier 1) (run Runs.voted create)
                  (exec (Ledger.env Ledger.yara) (Vote Ledger.xavier 1)
                     (run Runs.voted create))
                  (Tuple2_encode Ledger.xavier 1) 2
                  ltac:(vm_compute; reflexivity))).
  vm_compute. reflexivity.
Defined.

Lemma fresh_voter_passes_every_check_witness :
  is_Some (vote (Ledger.env Ledger.yara) Ledger.bob 3
             (run Runs.voted create)) /\
  is_Some (vote_on_update (Ledger.env Ledger.yara) Ledger.bob 3
             (run Runs.voted create)).
Proof.
  destruct (fresh_voter_passes_every_check (Ledger.env Ledger.yara) Ledger.bob 3
              (run Runs.voted create)) as [Hv Hu].
  - apply reachable_run, reachable_create.
  - vm_compute. reflexivity.
  - split; [apply Hv | apply Hu]; vm_compute; reflexivity.
Defined.

Lemma boxes_well_formed_witness :
  let s := run Runs.voted create in
  known_box (winning_proposal_votes s) (winning_update_votes s)
    (has_voted Ledger.alice) Bool_true.
Proof.
  cbv zeta. apply boxes_well_formed.
  - apply reachable_run, reachable_create.
  - vm_compute. reflexivity.
Defined.

Lemma post_mint_only_update_proposals_change_witness :
  let s := run Runs.minted create in
  let later := [ (Ledger.env Ledger.yara,
                  AddUpdate Ledger.treasury 1 (Ledger.pay 32500));
                 (Ledger.env Ledger.yara, Vote Ledger.xavier 1) ] in
  same_globals s (run later s) /\
  forall box, (forall k, box <> update_proposals k) ->
              boxes (run later s) !! box = boxes s !! box.
Proof.
  cbv zeta. apply post_mint_only_update_proposals_change.
  vm_compute. discriminate.
Defined.


